(** * Badge derivation and student badge lookup

    A shallow embedding of the two handlers of
    [src/components/BadgesDashboard/BadgesDashboard.tsx]:

    - [loadBadges] (component [BadgesDashboard]), which derives one badge
      per skill of a course from the skill matrix and the student analytics;
    - [handleSearch] (component [StudentBadgesTest]), which looks up the
      badges a student has earned.

    Both are [async] functions that read the backend, write React state
    through setters and talk to the console and the toast library.  They are
    modelled in a small state-and-exception monad over a world made of the
    component state, the trace of observable events and the number of
    pseudo-random timestamps drawn so far. *)

From Stdlib Require Import QArith Ascii String.
From stdpp Require Import base list strings gmap pretty.

Set Default Proof Using "Type".
#[local] Set Warnings "-clear-no-such-hyp".
Local Open Scope string_scope.
Local Open Scope list_scope.

(** ** JavaScript strings

    A string is a sequence of code units.  The model covers the strings
    whose code units lie in the Latin-1 range, one [ascii] per code unit
    (code unit [n] is [ascii_of_N n]). *)

Module JsString.

(** [String.prototype.toLowerCase] on one code unit: [A]-[Z] and the
    Latin-1 capitals U+00C0-U+00DE (without the multiplication sign
    U+00D7) move 32 places up, everything else is left alone. *)
Definition toLowerCaseUnit (c : ascii) : ascii :=
  let n := N_of_ascii c in
  if ((65 <=? n) && (n <=? 90)
      || (192 <=? n) && (n <=? 222) && negb (n =? 215))%N
  then ascii_of_N (n + 32) else c.

Fixpoint toLowerCase (s : string) : string :=
  match s with
  | EmptyString => EmptyString
  | String c s' => String (toLowerCaseUnit c) (toLowerCase s')
  end.

(** [s.startsWith(p)], the test [includes] repeats at every position. *)
Fixpoint startsWith (s p : string) : bool :=
  match p, s with
  | EmptyString, _ => true
  | String _ _, EmptyString => false
  | String a p', String b s' => bool_decide (a = b) && startsWith s' p'
  end.

(** [s.includes(sub)]: [sub] occurs in [s] as a contiguous substring. *)
Fixpoint includes (s sub : string) : bool :=
  startsWith s sub ||
  match s with
  | EmptyString => false
  | String _ s' => includes s' sub
  end.

(** White space and line terminators of ECMAScript within Latin-1:
    TAB, LF, VT, FF, CR, SP and NBSP. *)
Definition isWhiteSpace (c : ascii) : bool :=
  let n := N_of_ascii c in
  ((9 <=? n) && (n <=? 13) || (n =? 32) || (n =? 160))%N.

Fixpoint trimStart (s : string) : string :=
  match s with
  | EmptyString => EmptyString
  | String c s' => if isWhiteSpace c then trimStart s' else s
  end.

Fixpoint trimEnd (s : string) : string :=
  match s with
  | EmptyString => EmptyString
  | String c s' =>
      match trimEnd s' with
      | EmptyString => if isWhiteSpace c then EmptyString else String c EmptyString
      | r => String c r
      end
  end.

(** [String.prototype.trim]. *)
Definition trim (s : string) : string := trimEnd (trimStart s).

(** Every code unit of the string is white space (so also: the empty
    string). *)
Fixpoint blank (s : string) : bool :=
  match s with
  | EmptyString => true
  | String c s' => isWhiteSpace c && blank s'
  end.

(** A string in a condition: only the empty string is falsy. *)
Definition truthy (s : string) : bool :=
  match s with EmptyString => false | _ => true end.

End JsString.

(** ** Badge levels *)

Inductive Level := beginner | intermediate | advanced.

(** Lines 91-98 of [loadBadges]: the level of a badge from the name of its
    skill. *)
Definition classifyLevel (skillName : string) : Level :=
  let skillLower := JsString.toLowerCase skillName in
  if JsString.includes skillLower "basic"
     || JsString.includes skillLower "intro"
     || JsString.includes skillLower "fundamental"
  then beginner
  else if JsString.includes skillLower "advanced"
          || JsString.includes skillLower "expert"
          || JsString.includes skillLower "master"
  then advanced
  else intermediate.

(** ** Effects

    What a handler can do besides computing: emit an observable event, read
    and write the component state, draw a pseudo-random time stamp, throw. *)

Inductive Endpoint :=
| GetAllByCourse              (* skillMatrixAPI.getAllByCourse *)
| GetCourseStudentAnalytics   (* instructorAPI.getCourseStudentAnalytics *)
| GetStudentEarnedBadges.     (* badgeAPI.getStudentEarnedBadges *)

Inductive Event :=
| Request (endpoint : Endpoint) (arg : string)
| ConsoleLog (msg : string)
| ConsoleError (msg : string)
| ToastError (msg : string)
| ToastSuccess (msg : string).

(** A thrown value, as far as [error.response?.data?.message] looks into
    it.  An error that is not an HTTP error (a [TypeError], a network
    failure) has no [response]. *)
Module JsError.
Record data_t := mkData { message : option string }.
Record response_t := mkResponse { data : option data_t }.
Record t := mk { response : option response_t }.
End JsError.

(** A promise that has settled. *)
Inductive Outcome (A : Type) :=
| Resolved (a : A)
| Rejected (e : JsError.t).
Arguments Resolved {A} a.
Arguments Rejected {A} e.

Record World (St : Type) := mkWorld {
  state : St;              (* the React state of the component *)
  trace : list Event;     (* events so far, oldest first *)
  draws : nat             (* time stamps drawn so far *)
}.
Arguments mkWorld {St} _ _ _.
Arguments state {St} _.
Arguments trace {St} _.
Arguments draws {St} _.

Inductive Completion (A : Type) :=
| Normal (a : A)
| Throw (e : JsError.t).
Arguments Normal {A} a.
Arguments Throw {A} e.

Definition M (St A : Type) : Type := World St -> Completion A * World St.

Definition ret {St A} (a : A) : M St A := fun w => (Normal a, w).

Definition bind {St A B} (m : M St A) (k : A -> M St B) : M St B :=
  fun w =>
    match m w with
    | (Normal a, w') => k a w'
    | (Throw e, w') => (Throw e, w')
    end.

Declare Scope js_scope.
Delimit Scope js_scope with js.
Notation "'let*' x ':=' m 'in' k" := (bind m (fun x => k))
  (at level 10, x name, m at level 100, k at level 200,
   format "'[v' 'let*'  x  ':='  m  'in' '/' k ']'") : js_scope.
Notation "m ';;' k" := (bind m (fun _ => k))
  (at level 100, k at level 200, right associativity) : js_scope.

Local Open Scope js_scope.

Definition throw {St A} (e : JsError.t) : M St A := fun w => (Throw e, w).

(** [try { body } catch (error) { handler }] *)
Definition tryCatch {St A} (body : M St A) (handler : JsError.t -> M St A) : M St A :=
  fun w =>
    match body w with
    | (Normal a, w') => (Normal a, w')
    | (Throw e, w') => handler e w'
    end.

(** [try { body } finally { fin }]: [fin] runs however [body] completes,
    and the completion of [body] stands unless [fin] throws. *)
Definition tryFinally {St A} (body : M St A) (fin : M St unit) : M St A :=
  fun w =>
    match body w with
    | (c, w') =>
        match fin w' with
        | (Normal _, w'') => (c, w'')
        | (Throw e, w'') => (Throw e, w'')
        end
    end.

Definition emit {St} (ev : Event) : M St unit :=
  fun w => (Normal tt, mkWorld (state w) (trace w ++ [ev]) (draws w)).

Definition getState {St} : M St St := fun w => (Normal (state w), w).

Definition setState {St} (f : St -> St) : M St unit :=
  fun w => (Normal tt, mkWorld (f (state w)) (trace w) (draws w)).

(** [await api.call(arg)]: the request goes out, then the promise either
    yields its value or throws its rejection. *)
Definition await {St A} (endpoint : Endpoint) (arg : string) (o : Outcome A) : M St A :=
  (emit (Request endpoint arg) ;;
   match o with
   | Resolved a => ret a
   | Rejected e => throw e
   end).

(** [new Date(Date.now() - Math.random() * 365 * 24 * 60 * 60 * 1000)
    .toISOString()]: a time within the past year, which the handler cannot
    predict.  [stamp k] is the string the [k]-th evaluation produces. *)
Definition randomPastYearISO {St} (stamp : nat -> string) : M St string :=
  fun w => (Normal (stamp (draws w)), mkWorld (state w) (trace w) (S (draws w))).

Definition consoleLog {St} (msg : string) : M St unit := emit (ConsoleLog msg).
Definition consoleError {St} (msg : string) : M St unit := emit (ConsoleError msg).
Definition toastError {St} (msg : string) : M St unit := emit (ToastError msg).
Definition toastSuccess {St} (msg : string) : M St unit := emit (ToastSuccess msg).

(** [array.map((x, index) => f(x, index))] with an effectful callback,
    elements visited in ascending index order starting at [index]. *)
Fixpoint mapWithIndexM {St A B} (f : A -> nat -> M St B) (l : list A) (index : nat)
  : M St (list B) :=
  match l with
  | [] => ret []
  | x :: l' =>
      (let* b := f x index in
       let* bs := mapWithIndexM f l' (S index) in
       ret (b :: bs))
  end.

(** [array.forEach(x => ...)] where the callback updates local variables
    of the enclosing function, here the accumulator [acc]. *)
Fixpoint forEachM {St A Acc} (f : Acc -> A -> M St Acc) (l : list A) (acc : Acc)
  : M St Acc :=
  match l with
  | [] => ret acc
  | x :: l' => (let* acc' := f acc x in forEachM f l' acc')
  end.

(** ** [Set] of strings

    A JavaScript [Set] keeps its elements in insertion order; [add] of an
    element that is already there changes nothing. *)
Module JsSet.
Abbreviation t := (list string).
Definition empty : t := [].
Definition add (s : t) (x : string) : t :=
  if bool_decide (x ∈ s) then s else s ++ [x].
(** [new Set(iterable)] *)
Definition of_array (l : list string) : t := fold_left add l empty.
(** [Array.from(set)] *)
Definition to_array (s : t) : list string := s.
End JsSet.

(** ** Data of the badges dashboard *)

(** [interface StudentBadgeStatus] *)
Module StudentBadgeStatus.
Record t := mk {
  id : string;
  name : string;
  earned : bool;
  progress : Q;                 (* 0-100 *)
  earnedAt : option string;     (* [None]: undefined or left out *)
  skillScore : option Q
}.
End StudentBadgeStatus.

(** [interface BadgeData] *)
Module BadgeData.
Record t := mk {
  id : string;
  name : string;
  description : string;
  skill_name : string;
  level : Level;
  badge_type : option string;
  studentsEarned : list StudentBadgeStatus.t;
  studentsNotEarned : list StudentBadgeStatus.t
}.
End BadgeData.

(** One record of the skill-matrix response.  [skills] is [None] when the
    field is missing, null or not an array, the cases the guard
    [matrix.skills && Array.isArray(matrix.skills)] filters out. *)
Module SkillMatrix.
Record t := mk { skills : option (list string) }.
End SkillMatrix.

(** The analytics response.  A score is a number as [JSON.parse] delivers
    it, a finite double, which is a rational; [None] stands for a missing or
    null field.  [skillBreakdown] maps a skill name to the student's entry
    for it.  (A name such as "constructor", which a JavaScript object
    inherits, reads as an entry without [score]: the record built for it is
    the one built for a missing entry.) *)
Module SkillData.
Record t := mk { score : option Q }.
End SkillData.

Module Student.
Record t := mk {
  id : string;
  name : string;
  skillBreakdown : option (gmap string SkillData.t)
}.
End Student.

Module StudentAnalytics.
Record t := mk { students : option (list Student.t) }.
End StudentAnalytics.

(** The React state of [BadgesDashboard]. *)
Module Dashboard.
Record t := mk {
  badges : list BadgeData.t;
  loading : bool;
  selectedBadge : option string;
  showEarned : bool
}.
Definition initial : t := mk [] true None true.
Definition setBadges (v : list BadgeData.t) : M t unit :=
  setState (fun s => mk v (loading s) (selectedBadge s) (showEarned s)).
Definition setLoading (v : bool) : M t unit :=
  setState (fun s => mk (badges s) v (selectedBadge s) (showEarned s)).
End Dashboard.

(** ** Data of the student badge lookup *)

(** [interface EarnedBadge] *)
Module EarnedBadge.
Record t := mk {
  badge_id : string;
  badge_name : string;
  skill_name : string;
  badge_level : string;
  progress_percentage : Q;
  earned_at : string;
  course_id : string;
  course_name : string
}.
End EarnedBadge.

(** [response.data] of [badgeAPI.getStudentEarnedBadges] *)
Module EarnedBadges.
Record t := mk {
  badges : list EarnedBadge.t;
  total_badges : Z
}.
End EarnedBadges.

(** The React state of [StudentBadgesTest]. *)
Module Search.
Record t := mk {
  studentId : string;
  badges : list EarnedBadge.t;
  totalBadges : Z;
  loading : bool;
  searched : bool
}.
Definition initial : t := mk "" [] 0 false false.
Definition setBadges (v : list EarnedBadge.t) : M t unit :=
  setState (fun s => mk (studentId s) v (totalBadges s) (loading s) (searched s)).
Definition setTotalBadges (v : Z) : M t unit :=
  setState (fun s => mk (studentId s) (badges s) v (loading s) (searched s)).
Definition setLoading (v : bool) : M t unit :=
  setState (fun s => mk (studentId s) (badges s) (totalBadges s) v (searched s)).
Definition setSearched (v : bool) : M t unit :=
  setState (fun s => mk (studentId s) (badges s) (totalBadges s) (loading s) v).
End Search.

(** What the handlers find outside: the settled promise of each backend
    call, by argument, and the time stamps. *)
Record Backend := mkBackend {
  getAllByCourse : string -> Outcome (option (list SkillMatrix.t));
  getCourseStudentAnalytics : string -> Outcome (option StudentAnalytics.t);
  getStudentEarnedBadges : string -> Outcome EarnedBadges.t;
  stamp : nat -> string
}.

(** ** [loadBadges] *)

(** [x || 0] on a number that may be missing: a missing value and zero are
    falsy. *)
Definition orZero (x : option Q) : Q :=
  match x with
  | Some q => if Qeq_bool q 0 then 0%Q else q
  | None => 0%Q
  end.

(** Lines 55-60: the skills of all matrices, in order. *)
Definition collectSkills (skillMatrices : list SkillMatrix.t) : list string :=
  fold_left
    (fun allSkills matrix =>
       match SkillMatrix.skills matrix with
       | Some skills => allSkills ++ skills
       | None => allSkills
       end)
    skillMatrices [].

(** Line 63 *)
Definition uniqueSkillsOf (allSkills : list string) : list string :=
  JsSet.to_array (JsSet.of_array allSkills).

(** [`badge-${index}`] *)
Definition badgeId (index : nat) : string := "badge-" +:+ pretty index.

(** Lines 73-82: the badge of the analytics-failure path. *)
Definition emptyBadge (skillName : string) (index : nat) : BadgeData.t :=
  BadgeData.mk
    (badgeId index)
    (skillName +:+ " Badge")
    ("Awarded for demonstrating proficiency in " +:+ skillName)
    skillName
    intermediate
    (Some "skill")
    []
    [].

(** Lines 105-136: the body of the loop over the students.  The
    accumulator is the pair of the local arrays [studentsEarned] and
    [studentsNotEarned]; [push] appends at the end. *)
Definition processStudent (stamp : nat -> string) (skillName : string)
    (acc : list StudentBadgeStatus.t * list StudentBadgeStatus.t)
    (student : Student.t)
  : M Dashboard.t (list StudentBadgeStatus.t * list StudentBadgeStatus.t) :=
  let '(studentsEarned, studentsNotEarned) := acc in
  match Student.skillBreakdown student ≫= (.!! skillName) with
  | Some skillData =>
      let skillScore := orZero (SkillData.score skillData) in
      let hasEarned := Qle_bool 80 skillScore in
      (let* earnedAt :=
         (if hasEarned
          then let* iso := randomPastYearISO stamp in ret (Some iso)
          else ret None) in
       let studentStatus :=
         StudentBadgeStatus.mk (Student.id student) (Student.name student)
           hasEarned skillScore earnedAt (Some skillScore) in
       if hasEarned
       then ret (studentsEarned ++ [studentStatus], studentsNotEarned)
       else ret (studentsEarned, studentsNotEarned ++ [studentStatus]))
  | None =>
      ret (studentsEarned,
           studentsNotEarned ++
             [StudentBadgeStatus.mk (Student.id student) (Student.name student)
                false 0%Q None (Some 0%Q)])
  end.

(** Lines 89-149: the callback of [uniqueSkills.map]. *)
Definition skillBadge (stamp : nat -> string)
    (studentAnalytics : option StudentAnalytics.t)
    (skillName : string) (index : nat) : M Dashboard.t BadgeData.t :=
  let level := classifyLevel skillName in
  (let* parts :=
     match studentAnalytics ≫= StudentAnalytics.students with
     | Some students => forEachM (processStudent stamp skillName) students ([], [])
     | None => ret ([], [])
     end in
   ret (BadgeData.mk
          (badgeId index)
          (skillName +:+ " Badge")
          ("Awarded for demonstrating proficiency in " +:+ skillName)
          skillName
          level
          (Some "skill")
          (fst parts)
          (snd parts))).

(** Lines 39-160.  An early [return] inside the [try] is the end of its
    branch; the [finally] block runs after every branch. *)
Definition loadBadges (api : Backend) (courseId : string) : M Dashboard.t unit :=
  tryFinally
    (tryCatch
       (Dashboard.setLoading true ;;
        let* skillMatrices := await GetAllByCourse courseId (getAllByCourse api courseId) in
        match skillMatrices with
        | None | Some [] =>
            consoleLog "No skill matrix found for course" ;;
            Dashboard.setBadges [] ;;
            Dashboard.setLoading false
        | Some skillMatrices =>
            let allSkills := collectSkills skillMatrices in
            let uniqueSkills := uniqueSkillsOf allSkills in
            let* fetched :=
              tryCatch
                (let* studentAnalytics :=
                   await GetCourseStudentAnalytics courseId
                     (getCourseStudentAnalytics api courseId) in
                 ret (Some studentAnalytics))
                (fun error =>
                   consoleLog "Could not load student analytics:" ;;
                   Dashboard.setBadges (imap (fun index skillName => emptyBadge skillName index) uniqueSkills) ;;
                   Dashboard.setLoading false ;;
                   ret None) in
            match fetched with
            | None => ret tt
            | Some studentAnalytics =>
                let* skillBadges :=
                  mapWithIndexM (skillBadge (stamp api) studentAnalytics) uniqueSkills 0 in
                Dashboard.setBadges skillBadges
            end
        end)
       (fun error =>
          consoleError "Error loading badges:" ;;
          toastError "Failed to load badges" ;;
          Dashboard.setBadges []))
    (Dashboard.setLoading false).

(** ** [handleSearch] *)

(** [error.response?.data?.message] *)
Definition errorMessage (error : JsError.t) : option string :=
  (JsError.response error ≫= JsError.data) ≫= JsError.message.

(** [m || 'Failed to fetch badges']: a missing and an empty message are
    falsy. *)
Definition orFailedToFetch (m : option string) : string :=
  match m with
  | Some msg => if JsString.truthy msg then msg else "Failed to fetch badges"
  | None => "Failed to fetch badges"
  end.

(** Lines 446-468.  [studentId] is the state variable the handler closes
    over. *)
Definition handleSearch (api : Backend) : M Search.t unit :=
  let* st := getState in
  let studentId := Search.studentId st in
  if negb (JsString.truthy (JsString.trim studentId)) then
    toastError "Please enter a student ID"
  else
    tryFinally
      (tryCatch
         (Search.setLoading true ;;
          let* data :=
            await GetStudentEarnedBadges studentId (getStudentEarnedBadges api studentId) in
          Search.setBadges (EarnedBadges.badges data) ;;
          Search.setTotalBadges (EarnedBadges.total_badges data) ;;
          Search.setSearched true ;;
          toastSuccess ("Found " +:+ pretty (EarnedBadges.total_badges data) +:+ " badges"))
         (fun error =>
            consoleError "Error fetching badges:" ;;
            toastError (orFailedToFetch (errorMessage error)) ;;
            Search.setBadges [] ;;
            Search.setTotalBadges 0 ;;
            Search.setSearched true))
      (Search.setLoading false).

(** ** Notions of the specification *)

(** [sub] occurs in [s]. *)
Definition occursIn (sub s : string) : Prop :=
  ∃ pre post, s = pre +:+ sub +:+ post.

Definition beginnerWords : list string := ["basic"; "intro"; "fundamental"].
Definition advancedWords : list string := ["advanced"; "expert"; "master"].

(** Follows the spec: the level read off the lower-cased name by the
    substring rule, the beginner words first. *)
Definition levelBySubstringRule (skillName : string) (l : Level) : Prop :=
  let lower := JsString.toLowerCase skillName in
  let isBeginner := ∃ kw, kw ∈ beginnerWords ∧ occursIn kw lower in
  let isAdvanced := ∃ kw, kw ∈ advancedWords ∧ occursIn kw lower in
  (isBeginner → l = beginner) ∧
  (¬ isBeginner → isAdvanced → l = advanced) ∧
  (¬ isBeginner → ¬ isAdvanced → l = intermediate).

(** Follows the spec: every skill name of every matrix record. *)
Definition skillNamesOf (skillMatrices : list SkillMatrix.t) : list string :=
  concat ((λ matrix, default [] (SkillMatrix.skills matrix)) <$> skillMatrices).

(** Follows the spec: duplicates removed, first-seen order kept. *)
Fixpoint firstSeen (l : list string) : list string :=
  match l with
  | [] => []
  | x :: l' => x :: filter (λ y, y ≠ x) (firstSeen l')
  end.

(** Follows the spec: the student's score for a skill, 0 when the student
    has no entry for it or the entry has no score. *)
Definition scoreFor (student : Student.t) (skillName : string) : Q :=
  match Student.skillBreakdown student ≫= (.!! skillName) with
  | Some skillData => default 0%Q (SkillData.score skillData)
  | None => 0%Q
  end.

(** The status record [st] stands for [student] in the badge of
    [skillName]. *)
Definition recordsStudent (skillName : string) (student : Student.t)
    (st : StudentBadgeStatus.t) : Prop :=
  StudentBadgeStatus.id st = Student.id student ∧
  StudentBadgeStatus.name st = Student.name student ∧
  (StudentBadgeStatus.progress st == scoreFor student skillName)%Q.

(** The matrix records of a skill-matrix fetch, none when the fetch fails
    or its result is absent. *)
Definition matricesOf (o : Outcome (option (list SkillMatrix.t))) : list SkillMatrix.t :=
  match o with
  | Resolved (Some skillMatrices) => skillMatrices
  | _ => []
  end.

(** What identifies a student in a status record and in the response. *)
Definition statusKey (st : StudentBadgeStatus.t) : string * string :=
  (StudentBadgeStatus.id st, StudentBadgeStatus.name st).
Definition studentKey (s : Student.t) : string * string :=
  (Student.id s, Student.name s).

(** The students of an analytics response, none when it has no list. *)
Definition studentsOf (studentAnalytics : option StudentAnalytics.t) : list Student.t :=
  default [] (studentAnalytics ≫= StudentAnalytics.students).

(** The badge list on display after [loadBadges] has run. *)
Definition badgesAfter (api : Backend) (courseId : string)
    (w : World Dashboard.t) : list BadgeData.t :=
  Dashboard.badges (state (loadBadges api courseId w).2).

(** The events a run adds to the trace. *)
Definition eventsOf {St A} (m : M St A) (w : World St) : list Event :=
  drop (length (trace w)) (trace (m w).2).

(** ** Sample inputs *)

Module Sample.

Definition matrices : list SkillMatrix.t :=
  [ SkillMatrix.mk (Some ["Intro to Advanced Topics"; "Recursion"]);
    SkillMatrix.mk None;
    SkillMatrix.mk (Some ["Recursion"; "Expert Debugging"; "Intro to Advanced Topics"]) ].

Definition ada : Student.t :=
  Student.mk "s1" "Ada"
    (Some (<["Recursion" := SkillData.mk (Some 92%Q)]>
           (<["Expert Debugging" := SkillData.mk (Some (159 # 2))]> ∅))).

Definition bob : Student.t :=
  Student.mk "s2" "Bob"
    (Some (<["Recursion" := SkillData.mk None]>
           (<["Intro to Advanced Topics" := SkillData.mk (Some 80%Q)]> ∅))).

Definition cyd : Student.t := Student.mk "s3" "Cyd" None.

Definition analytics : option StudentAnalytics.t :=
  Some (StudentAnalytics.mk (Some [ada; bob; cyd])).

Definition earnedList : EarnedBadges.t :=
  EarnedBadges.mk
    [ EarnedBadge.mk "b1" "Recursion Badge" "Recursion" "intermediate" (92 # 1)
        "2025-03-01T10:00:00.000Z" "c1" "Algorithms" ]
    3.

Definition stamps (k : nat) : string := "2026-01-0" +:+ pretty k +:+ "T00:00:00.000Z".

Definition serverError (msg : option string) : JsError.t :=
  JsError.mk (Some (JsError.mkResponse (Some (JsError.mkData msg)))).

Definition networkError : JsError.t := JsError.mk None.

(** Everything answers. *)
Definition healthy : Backend :=
  mkBackend (λ _, Resolved (Some matrices)) (λ _, Resolved analytics)
    (λ _, Resolved earnedList) stamps.

(** The analytics endpoint is down. *)
Definition noAnalytics : Backend :=
  mkBackend (λ _, Resolved (Some matrices)) (λ _, Rejected networkError)
    (λ _, Rejected (serverError (Some "Student not found"))) stamps.

(** The course has no skill matrix. *)
Definition noMatrix : Backend :=
  mkBackend (λ _, Resolved (Some [])) (λ _, Resolved analytics)
    (λ _, Rejected networkError) stamps.

Definition dashboard0 : World Dashboard.t := mkWorld Dashboard.initial [] 0.

(** The badge of "Recursion" when everything answers, and when the
    analytics endpoint is down. *)
Definition recursionBadge : BadgeData.t :=
  Eval vm_compute in
    default (emptyBadge "" 0) (badgesAfter healthy "c1" dashboard0 !! 1).

Definition introBadgeNoAnalytics : BadgeData.t :=
  Eval vm_compute in
    default (emptyBadge "" 0) (badgesAfter noAnalytics "c1" dashboard0 !! 0).

Definition search0 (studentId : string) : World Search.t :=
  mkWorld (Search.mk studentId earnedList.(EarnedBadges.badges) 1 false true) [] 0.

End Sample.

(** ** What the loop over the students computes

    The pieces of lines 104-136, named so that the run of the loop can be
    described. *)

(** [skillScore] of lines 109 and 132-133. *)
Definition skillScoreOf (student : Student.t) (skillName : string) : Q :=
  match Student.skillBreakdown student ≫= (.!! skillName) with
  | Some skillData => orZero (SkillData.score skillData)
  | None => 0%Q
  end.

(** [hasEarned] of line 110; [false] on the branch of line 128. *)
Definition hasEarnedOf (student : Student.t) (skillName : string) : bool :=
  Qle_bool 80 (skillScoreOf student skillName).

(** [st] is a record the loop pushes for [student]. *)
Definition statusFor (skillName : string) (student : Student.t)
    (st : StudentBadgeStatus.t) : Prop :=
  StudentBadgeStatus.id st = Student.id student ∧
  StudentBadgeStatus.name st = Student.name student ∧
  StudentBadgeStatus.earned st = hasEarnedOf student skillName ∧
  StudentBadgeStatus.progress st = skillScoreOf student skillName ∧
  StudentBadgeStatus.skillScore st = Some (skillScoreOf student skillName) ∧
  (if hasEarnedOf student skillName
   then is_Some (StudentBadgeStatus.earnedAt st)
   else StudentBadgeStatus.earnedAt st = None).

(** The two arrays after the loop: the records of the students that have
    earned the badge, and of those that have not, each in the order of the
    response. *)
Definition partitionsFor (skillName : string) (students : list Student.t)
    (studentsEarned studentsNotEarned : list StudentBadgeStatus.t) : Prop :=
  Forall2 (statusFor skillName)
    (filter (λ s, hasEarnedOf s skillName = true) students) studentsEarned ∧
  Forall2 (statusFor skillName)
    (filter (λ s, ¬ hasEarnedOf s skillName = true) students) studentsNotEarned.

(** [b] is the badge the success path builds for [skillName] at [index]. *)
Definition derivedBadge (students : list Student.t) (skillName : string)
    (index : nat) (b : BadgeData.t) : Prop :=
  BadgeData.id b = badgeId index ∧
  BadgeData.name b = skillName +:+ " Badge" ∧
  BadgeData.description b = "Awarded for demonstrating proficiency in " +:+ skillName ∧
  BadgeData.skill_name b = skillName ∧
  BadgeData.level b = classifyLevel skillName ∧
  BadgeData.badge_type b = Some "skill" ∧
  partitionsFor skillName students
    (BadgeData.studentsEarned b) (BadgeData.studentsNotEarned b).

Definition derivedBadges (students : list Student.t) (skills : list string)
    (index : nat) (bs : list BadgeData.t) : Prop :=
  length bs = length skills ∧
  ∀ i skillName, skills !! i = Some skillName →
    ∃ b, bs !! i = Some b ∧ derivedBadge students skillName (index + i) b.

(** ** The rest of [BadgesDashboard]: interaction and rendering *)

(** Lines 166-171.  [progress] is a score as above. *)
Definition getProgressColor (progress : Q) : string :=
  if Qle_bool 90 progress then "bg-green-500"
  else if Qle_bool 70 progress then "bg-yellow-500"
  else if Qle_bool 50 progress then "bg-orange-500"
  else "bg-red-500".

(** Lines 380-383: the colour of the percentage shown for a student of
    [studentsNotEarned]. *)
Definition progressTextColor (progress : Q) : string :=
  if Qle_bool 80 progress then "text-green-600"
  else if Qle_bool 60 progress then "text-yellow-600"
  else "text-orange-600".

(** Line 387: the test that picks "Ready to earn!" over the distance to
    the badge. *)
Definition readyToEarn (progress : Q) : bool := Qle_bool 80 progress.

Definition setSelectedBadge (v : option string) : M Dashboard.t unit :=
  setState (fun s =>
    Dashboard.mk (Dashboard.badges s) (Dashboard.loading s) v (Dashboard.showEarned s)).

Definition setShowEarned (v : bool) : M Dashboard.t unit :=
  setState (fun s =>
    Dashboard.mk (Dashboard.badges s) (Dashboard.loading s) (Dashboard.selectedBadge s) v).

(** Lines 179-186.  [selectedBadge] is the state variable the handler
    closes over. *)
Definition toggleBadge (badgeId : string) : M Dashboard.t unit :=
  let* st := getState in
  if bool_decide (Dashboard.selectedBadge st = Some badgeId)
  then setSelectedBadge None
  else (setSelectedBadge (Some badgeId) ;; setShowEarned true).

(** Line 229: [selectedBadge === badge.id]. *)
Definition isExpanded (st : Dashboard.t) (badge : BadgeData.t) : bool :=
  bool_decide (Dashboard.selectedBadge st = Some (BadgeData.id badge)).

(** Line 230 *)
Definition totalStudents (badge : BadgeData.t) : nat :=
  length (BadgeData.studentsEarned badge) + length (BadgeData.studentsNotEarned badge).

(** Lines 236-237: [colors[index % 3]], [None] for [undefined]. *)
Definition colors : list string := ["bg-ucf-gold"; "bg-blue-500"; "bg-purple-500"].
Definition iconColor (index : nat) : option string := colors !! (index mod 3).



(** ** The rest of [StudentBadgesTest] *)

(** Lines 470-478: [switch (level.toLowerCase())]. *)
Definition getBadgeLevelColor (level : string) : string :=
  let l := JsString.toLowerCase level in
  if decide (l = "beginner") then "bg-blue-100 text-blue-800 border-blue-300"
  else if decide (l = "intermediate") then "bg-yellow-100 text-yellow-800 border-yellow-300"
  else if decide (l = "advanced") then "bg-purple-100 text-purple-800 border-purple-300"
  else if decide (l = "expert") then "bg-red-100 text-red-800 border-red-300"
  else "bg-gray-100 text-gray-800 border-gray-300".

(** Lines 480-488 *)
Definition getBadgeIconColor (level : string) : string :=
  let l := JsString.toLowerCase level in
  if decide (l = "beginner") then "bg-blue-500"
  else if decide (l = "intermediate") then "bg-yellow-500"
  else if decide (l = "advanced") then "bg-purple-500"
  else if decide (l = "expert") then "bg-red-500"
  else "bg-gray-500".

(** Lines 517-586: what is shown under the search box: nothing before the
    first search, then the summary (student id and total) over the list or
    over the "No badges found" message. *)
Inductive SearchView :=
| NothingYet
| SummaryAndList (studentId : string) (total : Z) (badges : list EarnedBadge.t)
| SummaryAndNoBadges (studentId : string) (total : Z).

Definition searchView (st : Search.t) : SearchView :=
  if Search.searched st then
    if Nat.ltb 0 (length (Search.badges st))
    then SummaryAndList (Search.studentId st) (Search.totalBadges st) (Search.badges st)
    else SummaryAndNoBadges (Search.studentId st) (Search.totalBadges st)
  else NothingYet.

(** ** Notions for the further properties *)

(** The fields of a badge that do not depend on the analytics. *)
Definition badgeFrame (b : BadgeData.t)
  : string * string * string * string * option string :=
  (BadgeData.id b, BadgeData.name b, BadgeData.description b,
   BadgeData.skill_name b, BadgeData.badge_type b).

(** The time stamps of the earned records of a badge list, badge by badge
    and record by record. *)
Definition earnedStamps (badges : list BadgeData.t) : list (option string) :=
  concat ((λ b, StudentBadgeStatus.earnedAt <$> BadgeData.studentsEarned b) <$> badges).

(** The stamps of [n] consecutive draws, the first being draw number
    [start]. *)
Definition stampsFrom (stamp : nat → string) (start n : nat) : list (option string) :=
  (λ k, Some (stamp k)) <$> seq start n.

Definition isRequest (ev : Event) : bool :=
  match ev with Request _ _ => true | _ => false end.

Module MoreSamples.

(** The skill-matrix endpoint is down. *)
Definition noServer : Backend :=
  mkBackend (λ _, Rejected Sample.networkError) (λ _, Resolved Sample.analytics)
    (λ _, Rejected Sample.networkError) Sample.stamps.

(** The analytics answer without a list of students. *)
Definition noStudents : Backend :=
  mkBackend (λ _, Resolved (Some Sample.matrices))
    (λ _, Resolved (Some (StudentAnalytics.mk None)))
    (λ _, Resolved Sample.earnedList) Sample.stamps.

(** The dashboard after a successful load, with "badge-0" expanded. *)
Definition loaded : World Dashboard.t :=
  (loadBadges Sample.healthy "c1" Sample.dashboard0).2.

End MoreSamples.

Global Instance Level_eq_dec : EqDecision Level.
Proof. solve_decision. Defined.
Global Instance Endpoint_eq_dec : EqDecision Endpoint.
Proof. solve_decision. Defined.
Global Instance Event_eq_dec : EqDecision Event.
Proof. solve_decision. Defined.

(** Unfolds the operations of the monad in a run. *)
Ltac run_monad :=
  unfold tryFinally, tryCatch, bind, await, consoleLog, consoleError,
    toastError, toastSuccess, emit, throw, ret, getState, setState,
    Dashboard.setBadges, Dashboard.setLoading,
    Search.setBadges, Search.setTotalBadges, Search.setLoading,
    Search.setSearched; simpl.

(** An event of another kind is not in an explicit list of events. *)
Ltac not_in_events :=
  let Hin := fresh "Hin" in
  intros Hin;
  repeat (apply elem_of_cons in Hin as [Hin|Hin]; [discriminate Hin|]);
  by apply elem_of_nil in Hin.

(** * Properties *)

(** ** Strings *)

Lemma startsWith_spec s p :
  JsString.startsWith s p = true ↔ ∃ post, s = p +:+ post.
Proof.
  revert s. induction p as [|a p IH]; intros s; simpl.
  - split; [intros _; by exists s | by destruct s].
  - destruct s as [|b s].
    + split; [done | intros [post H]; discriminate].
    + simpl. rewrite andb_true_iff, bool_decide_eq_true, IH. split.
      * intros [-> [post ->]]. by exists post.
      * intros [post H]. injection H as -> ->. eauto.
Qed.

Lemma includes_nil sub :
  JsString.includes "" sub = JsString.startsWith "" sub.
Proof. simpl. apply orb_false_r. Qed.

Lemma includes_cons c s sub :
  JsString.includes (String c s) sub
  = JsString.startsWith (String c s) sub || JsString.includes s sub.
Proof. reflexivity. Qed.

Lemma includes_spec s sub : JsString.includes s sub = true ↔ occursIn sub s.
Proof.
  unfold occursIn. induction s as [|c s IH].
  - rewrite includes_nil, startsWith_spec. split.
    + intros [post H]. by exists "", post.
    + intros [[|c pre] [post H]]; [by exists post | discriminate].
  - rewrite includes_cons, orb_true_iff, startsWith_spec, IH. split.
    + intros [[post H] | (pre & post & H)].
      * by exists "", post.
      * exists (String c pre), post. simpl. by rewrite H.
    + intros [[|d pre] [post H]].
      * left. by exists post.
      * right. simpl in H. injection H as -> ->. eauto.
Qed.

Lemma trimEnd_empty s : JsString.trimEnd s = "" ↔ JsString.blank s = true.
Proof.
  induction s as [|c s IH]; simpl; [done|].
  destruct (JsString.trimEnd s) eqn:E.
  - assert (JsString.blank s = true) as -> by by apply IH.
    rewrite andb_true_r. by destruct (JsString.isWhiteSpace c).
  - assert (JsString.blank s = false) as ->.
    { destruct (JsString.blank s); [|done]. by destruct IH as [_ IH]; specialize (IH eq_refl). }
    by rewrite andb_false_r.
Qed.

Lemma blank_trimStart s : JsString.blank (JsString.trimStart s) = JsString.blank s.
Proof.
  induction s as [|c s IH]; simpl; [done|].
  destruct (JsString.isWhiteSpace c) eqn:E; simpl; [done|]. by rewrite E.
Qed.

(** [trim] leaves nothing exactly of the strings made of white space. *)
Lemma trim_empty_iff_blank s : JsString.trim s = "" ↔ JsString.blank s = true.
Proof. unfold JsString.trim. by rewrite trimEnd_empty, blank_trimStart. Qed.

Lemma truthy_trim_blank s :
  JsString.truthy (JsString.trim s) = negb (JsString.blank s).
Proof.
  destruct (JsString.blank s) eqn:E.
  - apply trim_empty_iff_blank in E. by rewrite E.
  - destruct (JsString.trim s) eqn:T; [|done].
    apply trim_empty_iff_blank in T. congruence.
Qed.

Example trim_strips_both_ends : JsString.trim "  s1 " = "s1".
Proof. reflexivity. Qed.

Example trim_keeps_inner_space : JsString.trim (String "009" "a b") = "a b".
Proof. reflexivity. Qed.

Example includes_is_case_sensitive :
  JsString.includes "MASTERY" "master" = false
  ∧ JsString.includes (JsString.toLowerCase "MASTERY") "master" = true.
Proof. by split. Qed.

(** ** Level classification *)

Example classifyLevel_beginner : classifyLevel "Fundamentals of C" = beginner.
Proof. reflexivity. Qed.

Example classifyLevel_advanced : classifyLevel "MASTERY of Graphs" = advanced.
Proof. reflexivity. Qed.

Example classifyLevel_intermediate : classifyLevel "Recursion" = intermediate.
Proof. reflexivity. Qed.

Lemma includes_any_beginner lower :
  JsString.includes lower "basic" || JsString.includes lower "intro"
    || JsString.includes lower "fundamental" = true
  ↔ ∃ kw, kw ∈ beginnerWords ∧ occursIn kw lower.
Proof.
  rewrite !orb_true_iff, !includes_spec. unfold beginnerWords. split.
  - intros [[H|H]|H]; [exists "basic" | exists "intro" | exists "fundamental"];
      (split; [rewrite !elem_of_cons; tauto | done]).
  - intros (kw & Hin & H).
    rewrite !elem_of_cons, elem_of_nil in Hin.
    destruct Hin as [->|[->|[->|[]]]]; auto.
Qed.

Lemma includes_any_advanced lower :
  JsString.includes lower "advanced" || JsString.includes lower "expert"
    || JsString.includes lower "master" = true
  ↔ ∃ kw, kw ∈ advancedWords ∧ occursIn kw lower.
Proof.
  rewrite !orb_true_iff, !includes_spec. unfold advancedWords. split.
  - intros [[H|H]|H]; [exists "advanced" | exists "expert" | exists "master"];
      (split; [rewrite !elem_of_cons; tauto | done]).
  - intros (kw & Hin & H).
    rewrite !elem_of_cons, elem_of_nil in Hin.
    destruct Hin as [->|[->|[->|[]]]]; auto.
Qed.

(** The classifier of the success path implements the substring rule. *)
Lemma classifyLevel_rule skillName :
  levelBySubstringRule skillName (classifyLevel skillName).
Proof.
  unfold levelBySubstringRule, classifyLevel. cbv zeta.
  rewrite <- includes_any_beginner, <- includes_any_advanced.
  set (b := _ || _ || _). set (a := _ || _ || _).
  destruct b, a; naive_solver.
Qed.

(** ** Collecting and deduplicating the skill names *)

Lemma collectSkills_from acc skillMatrices :
  fold_left
    (λ allSkills matrix,
       match SkillMatrix.skills matrix with
       | Some skills => allSkills ++ skills
       | None => allSkills
       end) skillMatrices acc
  = acc ++ skillNamesOf skillMatrices.
Proof.
  revert acc. induction skillMatrices as [|m ms IH]; intros acc; simpl.
  - by rewrite app_nil_r.
  - rewrite IH. unfold skillNamesOf. simpl.
    destruct (SkillMatrix.skills m); simpl; [by rewrite app_assoc | done].
Qed.

Lemma collectSkills_skillNamesOf skillMatrices :
  collectSkills skillMatrices = skillNamesOf skillMatrices.
Proof. unfold collectSkills. by rewrite collectSkills_from. Qed.

Lemma firstSeen_elem_of l x : x ∈ firstSeen l ↔ x ∈ l.
Proof.
  induction l as [|y l IH]; simpl; [done|].
  rewrite !elem_of_cons, list_elem_of_filter, IH.
  destruct (decide (x = y)); tauto.
Qed.

Lemma firstSeen_NoDup l : NoDup (firstSeen l).
Proof.
  induction l as [|y l IH]; simpl; [constructor|].
  constructor; [|by apply NoDup_filter].
  rewrite list_elem_of_filter. naive_solver.
Qed.

(** Adding the elements of [l] to a set that holds [acc] appends, in
    first-seen order, those that are new. *)
Lemma JsSet_add_all l acc :
  fold_left JsSet.add l acc = acc ++ filter (λ y, y ∉ acc) (firstSeen l).
Proof.
  revert acc. induction l as [|x l IH]; intros acc; simpl.
  - by rewrite app_nil_r.
  - rewrite IH. unfold JsSet.add. case_bool_decide as Hx.
    + rewrite filter_cons_False by naive_solver. f_equal.
      rewrite list_filter_filter. apply list_filter_iff. naive_solver.
    + rewrite filter_cons_True by done.
      rewrite <- app_assoc. simpl. do 2 f_equal.
      rewrite list_filter_filter. apply list_filter_iff.
      intros y. rewrite elem_of_app, list_elem_of_singleton. naive_solver.
Qed.

(** [Array.from(new Set(allSkills))] is [allSkills] without its repeated
    names, in first-seen order. *)
Lemma uniqueSkillsOf_firstSeen allSkills :
  uniqueSkillsOf allSkills = firstSeen allSkills.
Proof.
  unfold uniqueSkillsOf, JsSet.to_array, JsSet.of_array, JsSet.empty.
  rewrite JsSet_add_all. simpl.
  induction (firstSeen allSkills) as [|y l IH]; [done|].
  rewrite filter_cons_True by apply not_elem_of_nil. by f_equal.
Qed.

(** [filter] keeps the relative order of what it keeps. *)
Lemma filter_lookup_order {A} (P : A → Prop) `{∀ x, Decision (P x)}
    (l : list A) i j x y :
  filter P l !! i = Some x → filter P l !! j = Some y → i < j →
  ∃ i' j', i' < j' ∧ l !! i' = Some x ∧ l !! j' = Some y.
Proof.
  revert i j. induction l as [|z l IH]; intros i j Hi Hj Hlt; [done|].
  destruct (decide (P z)) as [Hz|Hz].
  - rewrite filter_cons_True in Hi, Hj by done.
    destruct j as [|j]; [lia|]. destruct i as [|i]; simpl in *.
    + assert (y ∈ l) as [j' Hj']%list_elem_of_lookup.
      { eapply list_elem_of_filter, list_elem_of_lookup_2, Hj. }
      exists 0, (S j'). split; [lia | by simplify_eq].
    + destruct (IH i j Hi Hj) as (i' & j' & ? & ? & ?); [lia|].
      exists (S i'), (S j'). split; [lia | done].
  - rewrite filter_cons_False in Hi, Hj by done.
    destruct (IH i j Hi Hj Hlt) as (i' & j' & ? & ? & ?).
    exists (S i'), (S j'). split; [lia | done].
Qed.

(** First-seen order, said without the function: of two names of the
    deduplicated list the earlier one occurs in the input before every
    occurrence of the later one. *)
Lemma firstSeen_order l i j x y :
  firstSeen l !! i = Some x → firstSeen l !! j = Some y → i < j →
  ∃ a, l !! a = Some x ∧ ∀ b, l !! b = Some y → a < b.
Proof.
  revert i j. induction l as [|z l IH]; intros i j Hi Hj Hlt; [done|].
  simpl in Hi, Hj. destruct j as [|j]; [lia|]. simpl in Hj.
  assert (y ≠ z) as Hyz.
  { apply list_elem_of_lookup_2, list_elem_of_filter in Hj. tauto. }
  destruct i as [|i]; simpl in Hi.
  - simplify_eq. exists 0. split; [done|].
    intros [|b] Hb; [simpl in Hb; congruence | lia].
  - destruct (filter_lookup_order _ _ _ _ _ _ Hi Hj) as (i' & j' & ? & Hi' & Hj'); [lia|].
    destruct (IH i' j' Hi' Hj') as (a & Ha & Hbefore); [done|].
    exists (S a). split; [done|].
    intros [|b] Hb; [simpl in Hb; congruence|].
    apply Hbefore in Hb. lia.
Qed.

(** ** The run of the loops *)

Lemma forEachM_cons {St A Acc} (f : Acc → A → M St Acc) x l acc w :
  forEachM f (x :: l) acc w
  = match f acc x w with
    | (Normal acc', w') => forEachM f l acc' w'
    | (Throw e, w') => (Throw e, w')
    end.
Proof. reflexivity. Qed.

Lemma mapWithIndexM_cons {St A B} (f : A → nat → M St B) x l index w :
  mapWithIndexM f (x :: l) index w
  = match f x index w with
    | (Normal b, w') =>
        match mapWithIndexM f l (S index) w' with
        | (Normal bs, w'') => (Normal (b :: bs), w'')
        | (Throw e, w'') => (Throw e, w'')
        end
    | (Throw e, w') => (Throw e, w')
    end.
Proof. reflexivity. Qed.

Lemma processStudent_run stamp skillName E N student (w : World Dashboard.t) :
  ∃ st w',
    processStudent stamp skillName (E, N) student w
    = (Normal (if hasEarnedOf student skillName
               then (E ++ [st], N) else (E, N ++ [st])), w')
    ∧ statusFor skillName student st
    ∧ state w' = state w ∧ trace w' = trace w.
Proof.
  unfold processStudent, statusFor, hasEarnedOf, skillScoreOf.
  destruct (Student.skillBreakdown student ≫= (.!! skillName)) as [d|]; simpl.
  - destruct (Qle_bool 80 (orZero (SkillData.score d))) eqn:He;
      unfold bind, ret, randomPastYearISO; simpl;
      eexists _, _; (split; [reflexivity|]); simpl; rewrite ?He; eauto 10.
  - unfold ret. eexists _, _. split; [reflexivity|]. simpl. eauto 10.
Qed.

Lemma forEach_processStudent_run stamp skillName students :
  ∀ E N (w : World Dashboard.t), ∃ E' N' w',
    forEachM (processStudent stamp skillName) students (E, N) w
    = (Normal (E ++ E', N ++ N'), w')
    ∧ partitionsFor skillName students E' N'
    ∧ state w' = state w ∧ trace w' = trace w.
Proof.
  unfold partitionsFor.
  induction students as [|s students IH]; intros E N w.
  - exists [], [], w. rewrite !app_nil_r. simpl. repeat split; constructor.
  - destruct (processStudent_run stamp skillName E N s w)
      as (st & w1 & Hrun & Hst & Hs1 & Ht1).
    rewrite forEachM_cons, Hrun.
    destruct (hasEarnedOf s skillName) eqn:He.
    + destruct (IH (E ++ [st]) N w1) as (E' & N' & w' & -> & [HE HN] & Hs & Ht).
      exists (st :: E'), N', w'. rewrite <- app_assoc. simpl.
      rewrite filter_cons_True by done.
      rewrite filter_cons_False by (intros Hn; by apply Hn).
      repeat split; try congruence. by constructor.
    + destruct (IH E (N ++ [st]) w1) as (E' & N' & w' & -> & [HE HN] & Hs & Ht).
      exists E', (st :: N'), w'. rewrite <- app_assoc. simpl.
      rewrite filter_cons_False by congruence.
      rewrite filter_cons_True by congruence.
      repeat split; try congruence. by constructor.
Qed.

Lemma skillBadge_run stamp studentAnalytics skillName index (w : World Dashboard.t) :
  ∃ b w',
    skillBadge stamp studentAnalytics skillName index w = (Normal b, w')
    ∧ derivedBadge (studentsOf studentAnalytics) skillName index b
    ∧ state w' = state w ∧ trace w' = trace w.
Proof.
  unfold skillBadge, studentsOf, derivedBadge.
  destruct (studentAnalytics ≫= StudentAnalytics.students) as [students|]; simpl.
  - destruct (forEach_processStudent_run stamp skillName students [] [] w)
      as (E & N & w' & Hrun & Hparts & Hs & Ht).
    unfold bind. rewrite Hrun. unfold ret. eexists _, w'.
    split; [reflexivity|]. simpl. by split_and!.
  - unfold bind, ret. simpl. eexists _, w. split; [reflexivity|]. simpl.
    split_and!; try done; constructor.
Qed.

Lemma mapWithIndex_skillBadge_run stamp studentAnalytics skills :
  ∀ index (w : World Dashboard.t), ∃ bs w',
    mapWithIndexM (skillBadge stamp studentAnalytics) skills index w = (Normal bs, w')
    ∧ derivedBadges (studentsOf studentAnalytics) skills index bs
    ∧ state w' = state w ∧ trace w' = trace w.
Proof.
  unfold derivedBadges.
  induction skills as [|k skills IH]; intros index w.
  - exists [], w. simpl. repeat split. intros i ? Hi. done.
  - destruct (skillBadge_run stamp studentAnalytics k index w)
      as (b & w1 & Hrun & Hb & Hs1 & Ht1).
    destruct (IH (S index) w1) as (bs & w' & Hrest & [Hlen Hbs] & Hs & Ht).
    exists (b :: bs), w'. rewrite mapWithIndexM_cons, Hrun, Hrest.
    repeat split; simpl; try congruence.
    intros [|i] k' Hk; simpl in Hk.
    + simplify_eq. exists b. by rewrite Nat.add_0_r.
    + destruct (Hbs i k' Hk) as (b' & ? & Hb').
      exists b'. split; [done|]. by replace (index + S i) with (S index + i) by lia.
Qed.

(** ** The four ways through [loadBadges] *)

(** The skill matrix cannot be fetched: the outer [catch]. *)
Lemma loadBadges_matrix_rejected api courseId w e :
  getAllByCourse api courseId = Rejected e →
  loadBadges api courseId w
  = (Normal tt,
     mkWorld
       (Dashboard.mk [] false
          (Dashboard.selectedBadge (state w)) (Dashboard.showEarned (state w)))
       (trace w ++ [Request GetAllByCourse courseId;
                    ConsoleError "Error loading badges:";
                    ToastError "Failed to load badges"])
       (draws w)).
Proof.
  intros Hm. unfold loadBadges. run_monad. rewrite Hm. simpl.
  by rewrite <- !app_assoc.
Qed.

(** No skill matrix: the early return of lines 47-52. *)
Lemma loadBadges_no_matrix api courseId w skillMatrices :
  getAllByCourse api courseId = Resolved skillMatrices →
  skillMatrices = None ∨ skillMatrices = Some [] →
  loadBadges api courseId w
  = (Normal tt,
     mkWorld
       (Dashboard.mk [] false
          (Dashboard.selectedBadge (state w)) (Dashboard.showEarned (state w)))
       (trace w ++ [Request GetAllByCourse courseId;
                    ConsoleLog "No skill matrix found for course"])
       (draws w)).
Proof.
  intros Hm Hempty. unfold loadBadges. run_monad. rewrite Hm. simpl.
  destruct Hempty as [-> | ->]; simpl; by rewrite <- !app_assoc.
Qed.

(** The analytics cannot be fetched: the inner [catch] of lines 70-86. *)
Lemma loadBadges_fallback api courseId w m ms e :
  getAllByCourse api courseId = Resolved (Some (m :: ms)) →
  getCourseStudentAnalytics api courseId = Rejected e →
  loadBadges api courseId w
  = (Normal tt,
     mkWorld
       (Dashboard.mk
          (imap (λ index skillName, emptyBadge skillName index)
             (uniqueSkillsOf (collectSkills (m :: ms))))
          false
          (Dashboard.selectedBadge (state w)) (Dashboard.showEarned (state w)))
       (trace w ++ [Request GetAllByCourse courseId;
                    Request GetCourseStudentAnalytics courseId;
                    ConsoleLog "Could not load student analytics:"])
       (draws w)).
Proof.
  intros Hm Ha. unfold loadBadges. run_monad. rewrite Hm. simpl.
  rewrite Ha. simpl. by rewrite <- !app_assoc.
Qed.

(** Both fetches answer: lines 89-151. *)
Lemma loadBadges_success api courseId w m ms studentAnalytics :
  getAllByCourse api courseId = Resolved (Some (m :: ms)) →
  getCourseStudentAnalytics api courseId = Resolved studentAnalytics →
  ∃ bs d,
    loadBadges api courseId w
    = (Normal tt,
       mkWorld
         (Dashboard.mk bs false
            (Dashboard.selectedBadge (state w)) (Dashboard.showEarned (state w)))
         (trace w ++ [Request GetAllByCourse courseId;
                      Request GetCourseStudentAnalytics courseId])
         d)
    ∧ derivedBadges (studentsOf studentAnalytics)
        (uniqueSkillsOf (collectSkills (m :: ms))) 0 bs.
Proof.
  intros Hm Ha. unfold loadBadges. run_monad. rewrite Hm. simpl.
  rewrite Ha. simpl.
  match goal with
  | |- context [mapWithIndexM ?f ?l ?i ?w0] =>
      destruct (mapWithIndex_skillBadge_run (stamp api) studentAnalytics l i w0)
        as (bs & w' & -> & Hbs & Hs & Ht)
  end.
  exists bs, (draws w'). simpl in *. rewrite Hs, Ht. simpl.
  by rewrite <- !app_assoc.
Qed.

(** ** The badge list after the run *)

(** Whatever the backend does, the badges on display line up with the
    deduplicated skills; how each badge is filled depends on the analytics
    fetch. *)
Lemma badgesAfter_shape api courseId w :
  let skills := uniqueSkillsOf (collectSkills (matricesOf (getAllByCourse api courseId))) in
  length (badgesAfter api courseId w) = length skills ∧
  ∀ i b, badgesAfter api courseId w !! i = Some b →
    skills !! i = Some (BadgeData.skill_name b) ∧
    match getCourseStudentAnalytics api courseId with
    | Resolved studentAnalytics =>
        derivedBadge (studentsOf studentAnalytics) (BadgeData.skill_name b) i b
    | Rejected _ => b = emptyBadge (BadgeData.skill_name b) i
    end.
Proof.
  unfold badgesAfter.
  destruct (getAllByCourse api courseId) as [[[|m ms]|]|e] eqn:Hm; simpl.
  - erewrite loadBadges_no_matrix by eauto. by split.
  - destruct (getCourseStudentAnalytics api courseId) as [sa|e] eqn:Ha.
    + destruct (loadBadges_success api courseId w m ms sa Hm Ha)
        as (bs & d & -> & Hlen & Hbs).
      simpl. split; [done|]. intros i b Hi.
      destruct (lookup_lt_is_Some_2 (uniqueSkillsOf (collectSkills (m :: ms))) i)
        as [k Hk]; [rewrite <- Hlen; by eapply lookup_lt_Some|].
      destruct (Hbs i k Hk) as (b' & Hb' & Hd). simplify_eq.
      destruct Hd as (? & ? & ? & Hname & ?). rewrite Hname. by split_and!.
    + erewrite loadBadges_fallback by eauto. simpl.
      split; [apply length_imap|]. intros i b Hi.
      rewrite list_lookup_imap in Hi.
      destruct (uniqueSkillsOf (collectSkills (m :: ms)) !! i) as [k|];
        simpl in Hi; by simplify_eq.
  - erewrite loadBadges_no_matrix by eauto. by split.
  - erewrite loadBadges_matrix_rejected by eauto. by split.
Qed.

Lemma badgesAfter_names api courseId w :
  BadgeData.skill_name <$> badgesAfter api courseId w
  = firstSeen (skillNamesOf (matricesOf (getAllByCourse api courseId))).
Proof.
  destruct (badgesAfter_shape api courseId w) as [Hlen Hb].
  rewrite collectSkills_skillNamesOf, uniqueSkillsOf_firstSeen in Hlen, Hb.
  apply list_eq_same_length with (length (badgesAfter api courseId w));
    [done | by rewrite length_fmap |].
  intros i x y _ Hx Hy. rewrite list_lookup_fmap in Hx.
  destruct (badgesAfter api courseId w !! i) as [b|] eqn:Hi; [|done].
  destruct (Hb i b Hi) as [Hk _]. simpl in Hx. congruence.
Qed.

(** ** Scores and partitions *)

Lemma orZero_default o : (orZero o == default 0 o)%Q.
Proof.
  destruct o as [q|]; simpl; [|reflexivity].
  destruct (Qeq_bool q 0) eqn:E; [|reflexivity].
  symmetry. by apply Qeq_bool_iff.
Qed.

Lemma skillScoreOf_scoreFor s skillName :
  (skillScoreOf s skillName == scoreFor s skillName)%Q.
Proof.
  unfold skillScoreOf, scoreFor.
  destruct (Student.skillBreakdown s ≫= (.!! skillName)); [apply orZero_default | reflexivity].
Qed.

Lemma hasEarnedOf_true s skillName :
  hasEarnedOf s skillName = true ↔ (80 <= scoreFor s skillName)%Q.
Proof.
  unfold hasEarnedOf. by rewrite Qle_bool_iff, skillScoreOf_scoreFor.
Qed.

Lemma hasEarnedOf_false s skillName :
  hasEarnedOf s skillName = false ↔ (scoreFor s skillName < 80)%Q.
Proof.
  rewrite <- not_true_iff_false, hasEarnedOf_true. split.
  - apply Qnot_le_lt.
  - intros Hlt Hle. by apply (Qlt_not_le _ _ Hlt).
Qed.

Lemma statusFor_recordsStudent skillName s st :
  statusFor skillName s st → recordsStudent skillName s st.
Proof.
  intros (Hid & Hname & _ & Hp & _). unfold recordsStudent.
  rewrite Hp. split_and!; [done | done | apply skillScoreOf_scoreFor].
Qed.

Lemma Forall2_statusFor_elem skillName (L : list Student.t) E st :
  Forall2 (statusFor skillName) L E → st ∈ E →
  ∃ s, s ∈ L ∧ statusFor skillName s st.
Proof.
  intros HF [i Hi]%list_elem_of_lookup.
  destruct (Forall2_lookup_r _ _ _ _ _ HF Hi) as (s & Hs & Hst).
  exists s. split; [by eapply list_elem_of_lookup_2 | done].
Qed.

Lemma Forall2_statusFor_student skillName (L : list Student.t) E s :
  Forall2 (statusFor skillName) L E → s ∈ L →
  ∃ st, st ∈ E ∧ statusFor skillName s st.
Proof.
  intros HF [i Hi]%list_elem_of_lookup.
  destruct (Forall2_lookup_l _ _ _ _ _ HF Hi) as (st & Hst & Hs).
  exists st. split; [by eapply list_elem_of_lookup_2 | done].
Qed.

Lemma Forall2_statusFor_keys skillName (L : list Student.t) E :
  Forall2 (statusFor skillName) L E → statusKey <$> E = studentKey <$> L.
Proof.
  induction 1 as [|s st L E (Hid & Hname & _) _ IH]; [done|].
  rewrite !fmap_cons, IH. unfold statusKey, studentKey. by rewrite Hid, Hname.
Qed.

Lemma partitionsFor_earned skillName students E N st :
  partitionsFor skillName students E N → st ∈ E →
  ∃ s, s ∈ students ∧ hasEarnedOf s skillName = true ∧ statusFor skillName s st.
Proof.
  intros [HE _] Hst.
  destruct (Forall2_statusFor_elem _ _ _ _ HE Hst) as (s & Hs & ?).
  apply list_elem_of_filter in Hs as [? ?]. eauto.
Qed.

Lemma partitionsFor_notEarned skillName students E N st :
  partitionsFor skillName students E N → st ∈ N →
  ∃ s, s ∈ students ∧ hasEarnedOf s skillName = false ∧ statusFor skillName s st.
Proof.
  intros [_ HN] Hst.
  destruct (Forall2_statusFor_elem _ _ _ _ HN Hst) as (s & Hs & ?).
  apply list_elem_of_filter in Hs as [Hf ?].
  exists s. split_and!; [done | by destruct (hasEarnedOf s skillName) | done].
Qed.

Lemma partitionsFor_student skillName students E N s :
  partitionsFor skillName students E N → s ∈ students →
  ∃ st, statusFor skillName s st ∧
        if hasEarnedOf s skillName then st ∈ E else st ∈ N.
Proof.
  intros [HE HN] Hs. destruct (hasEarnedOf s skillName) eqn:He.
  - destruct (Forall2_statusFor_student _ _ _ s HE) as (st & ? & ?); [|by eauto].
    by apply list_elem_of_filter.
  - destruct (Forall2_statusFor_student _ _ _ s HN) as (st & ? & ?); [|by eauto].
    apply list_elem_of_filter. split; [congruence | done].
Qed.

Lemma partitionsFor_keys skillName students E N :
  partitionsFor skillName students E N →
  statusKey <$> (E ++ N) ≡ₚ studentKey <$> students.
Proof.
  intros [HE HN]. rewrite fmap_app.
  rewrite (Forall2_statusFor_keys _ _ _ HE), (Forall2_statusFor_keys _ _ _ HN).
  rewrite <- fmap_app. apply fmap_Permutation, filter_app_complement.
Qed.

(** * Main results *)

(** ** Partition of the students *)

Section Partition.

Context (api : Backend) (courseId : string) (w : World Dashboard.t).
Context (studentAnalytics : option StudentAnalytics.t).
Context (i : nat) (b : BadgeData.t).
Hypothesis Hanalytics : getCourseStudentAnalytics api courseId = Resolved studentAnalytics.
Hypothesis Hbadge : badgesAfter api courseId w !! i = Some b.

Lemma badge_partitions :
  partitionsFor (BadgeData.skill_name b) (studentsOf studentAnalytics)
    (BadgeData.studentsEarned b) (BadgeData.studentsNotEarned b).
Proof using Hanalytics Hbadge.
  destruct (badgesAfter_shape api courseId w) as [_ Hb].
  destruct (Hb i b Hbadge) as [_ Hd]. rewrite Hanalytics in Hd.
  by destruct Hd as (_ & _ & _ & _ & _ & _ & Hparts).
Qed.

Lemma earned_records_have_80 s st :
  st ∈ BadgeData.studentsEarned b →
  recordsStudent (BadgeData.skill_name b) s st →
  (80 <= scoreFor s (BadgeData.skill_name b))%Q.
Proof using Hanalytics Hbadge.
  intros Hin (_ & _ & Hp).
  destruct (partitionsFor_earned _ _ _ _ _ badge_partitions Hin)
    as (s' & _ & He & (_ & _ & _ & Hp' & _)).
  rewrite <- Hp, Hp'. by apply Qle_bool_iff.
Qed.

Lemma notEarned_records_below_80 s st :
  st ∈ BadgeData.studentsNotEarned b →
  recordsStudent (BadgeData.skill_name b) s st →
  (scoreFor s (BadgeData.skill_name b) < 80)%Q.
Proof using Hanalytics Hbadge.
  intros Hin (_ & _ & Hp).
  destruct (partitionsFor_notEarned _ _ _ _ _ badge_partitions Hin)
    as (s' & _ & He & (_ & _ & _ & Hp' & _)).
  rewrite <- Hp, Hp'. apply hasEarnedOf_false in He.
  by rewrite skillScoreOf_scoreFor.
Qed.

Lemma student_placed s :
  s ∈ studentsOf studentAnalytics →
  ∃ st, recordsStudent (BadgeData.skill_name b) s st ∧
    if hasEarnedOf s (BadgeData.skill_name b)
    then st ∈ BadgeData.studentsEarned b
    else st ∈ BadgeData.studentsNotEarned b.
Proof using Hanalytics Hbadge.
  intros Hs.
  destruct (partitionsFor_student _ _ _ _ _ badge_partitions Hs) as (st & Hst & Hin).
  exists st. split; [by apply statusFor_recordsStudent | done].
Qed.

End Partition.

(** C1.  After [loadBadges] has run on an analytics response, take any
    badge on display and any student of the response.  A record of the
    student (its id, its name, its score for the badge's skill as progress)
    is in [studentsEarned] exactly when the score is at least 80 and in
    [studentsNotEarned] exactly when it is below 80, so in one of the two
    and never in both; the two lists together hold the students of the
    response once each; a student with no entry for the skill, or with an
    entry without score, has score 0 and is in [studentsNotEarned]. *)
Theorem each_student_in_exactly_one_partition
    api courseId w studentAnalytics i b j s :
  getCourseStudentAnalytics api courseId = Resolved studentAnalytics →
  badgesAfter api courseId w !! i = Some b →
  studentsOf studentAnalytics !! j = Some s →
  let skillName := BadgeData.skill_name b in
  let inEarned :=
    ∃ st, st ∈ BadgeData.studentsEarned b ∧ recordsStudent skillName s st in
  let inNotEarned :=
    ∃ st, st ∈ BadgeData.studentsNotEarned b ∧ recordsStudent skillName s st in
  (inEarned ↔ (80 <= scoreFor s skillName)%Q) ∧
  (inNotEarned ↔ (scoreFor s skillName < 80)%Q) ∧
  (inEarned ∨ inNotEarned) ∧
  ¬ (inEarned ∧ inNotEarned) ∧
  statusKey <$> (BadgeData.studentsEarned b ++ BadgeData.studentsNotEarned b)
    ≡ₚ studentKey <$> studentsOf studentAnalytics ∧
  ((Student.skillBreakdown s ≫= (.!! skillName)) ≫= SkillData.score = None →
   scoreFor s skillName = 0%Q ∧ inNotEarned).
Proof.
  intros Ha Hb Hs%list_elem_of_lookup_2 skillName inEarned inNotEarned.
  pose proof (student_placed api courseId w studentAnalytics i b Ha Hb s Hs)
    as (st & Hrec & Hplace).
  assert (inEarned ↔ (80 <= scoreFor s skillName)%Q) as HE.
  { split.
    - intros (st' & Hin & Hrec'). by eapply earned_records_have_80.
    - intros Hle%hasEarnedOf_true. fold skillName in Hplace.
      rewrite Hle in Hplace. by exists st. }
  assert (inNotEarned ↔ (scoreFor s skillName < 80)%Q) as HN.
  { split.
    - intros (st' & Hin & Hrec'). by eapply notEarned_records_below_80.
    - intros Hlt%hasEarnedOf_false. fold skillName in Hplace.
      rewrite Hlt in Hplace. by exists st. }
  split_and!; try done.
  - destruct (Qlt_le_dec (scoreFor s skillName) 80); [right | left]; tauto.
  - rewrite HE, HN. intros [Hle Hlt]. by apply (Qlt_not_le _ _ Hlt).
  - by eapply partitionsFor_keys, badge_partitions.
  - intros Hnone.
    assert (scoreFor s skillName = 0%Q) as H0.
    { unfold scoreFor.
      destruct (Student.skillBreakdown s ≫= (.!! skillName)) as [d|]; [|done].
      simpl in Hnone. by rewrite Hnone. }
    split; [done|]. apply HN. by rewrite H0.
Qed.

Lemma each_student_in_exactly_one_partition_witness :
  (80 <= scoreFor Sample.ada "Recursion")%Q ∧
  (scoreFor Sample.bob "Recursion" < 80)%Q ∧
  (∃ st, st ∈ BadgeData.studentsEarned Sample.recursionBadge
         ∧ recordsStudent "Recursion" Sample.ada st) ∧
  (∃ st, st ∈ BadgeData.studentsNotEarned Sample.recursionBadge
         ∧ recordsStudent "Recursion" Sample.bob st).
Proof.
  split; [by vm_compute|]. split; [by vm_compute|]. split.
  - apply (each_student_in_exactly_one_partition
             Sample.healthy "c1" Sample.dashboard0 Sample.analytics
             1 Sample.recursionBadge 0 Sample.ada);
      [reflexivity | reflexivity | reflexivity | by vm_compute].
  - apply (each_student_in_exactly_one_partition
             Sample.healthy "c1" Sample.dashboard0 Sample.analytics
             1 Sample.recursionBadge 1 Sample.bob);
      [reflexivity | reflexivity | reflexivity | by vm_compute].
Defined.

(** ** The fields of the status records *)

Lemma statusFor_earned_fields skillName s st :
  statusFor skillName s st → hasEarnedOf s skillName = true →
  StudentBadgeStatus.earned st = true
  ∧ is_Some (StudentBadgeStatus.earnedAt st)
  ∧ StudentBadgeStatus.skillScore st = Some (StudentBadgeStatus.progress st).
Proof.
  intros (_ & _ & He & Hp & Hs & Hat) Hearned.
  rewrite Hearned in He, Hat. by rewrite He, Hs, Hp.
Qed.

Lemma statusFor_notEarned_fields skillName s st :
  statusFor skillName s st → hasEarnedOf s skillName = false →
  StudentBadgeStatus.earned st = false
  ∧ StudentBadgeStatus.earnedAt st = None
  ∧ StudentBadgeStatus.skillScore st = Some (StudentBadgeStatus.progress st).
Proof.
  intros (_ & _ & He & Hp & Hs & Hat) Hearned.
  rewrite Hearned in He, Hat. by rewrite He, Hs, Hp.
Qed.

Lemma statusFor_no_entry skillName s st :
  statusFor skillName s st →
  Student.skillBreakdown s ≫= (.!! skillName) = None →
  StudentBadgeStatus.progress st = 0%Q
  ∧ StudentBadgeStatus.skillScore st = Some 0%Q
  ∧ hasEarnedOf s skillName = false.
Proof.
  intros (_ & _ & _ & Hp & Hs & _) Hnone.
  unfold hasEarnedOf. rewrite Hp, Hs. unfold skillScoreOf. by rewrite Hnone.
Qed.

(** C10.  In every badge [loadBadges] puts on display, a record of
    [studentsEarned] has [earned] true, an [earnedAt] and [skillScore] equal
    to [progress]; a record of [studentsNotEarned] has [earned] false, no
    [earnedAt] and [skillScore] equal to [progress].  Each record stands
    for a student of the analytics response, with the student's score for
    the skill as progress; for a student without entry for the skill both
    fields are 0 and the record is in [studentsNotEarned]. *)
Theorem status_records_consistent api courseId w i b :
  badgesAfter api courseId w !! i = Some b →
  Forall (λ st, StudentBadgeStatus.earned st = true
                ∧ is_Some (StudentBadgeStatus.earnedAt st)
                ∧ StudentBadgeStatus.skillScore st
                  = Some (StudentBadgeStatus.progress st))
    (BadgeData.studentsEarned b) ∧
  Forall (λ st, StudentBadgeStatus.earned st = false
                ∧ StudentBadgeStatus.earnedAt st = None
                ∧ StudentBadgeStatus.skillScore st
                  = Some (StudentBadgeStatus.progress st))
    (BadgeData.studentsNotEarned b) ∧
  (∀ studentAnalytics st,
     getCourseStudentAnalytics api courseId = Resolved studentAnalytics →
     st ∈ BadgeData.studentsEarned b ++ BadgeData.studentsNotEarned b →
     ∃ s, s ∈ studentsOf studentAnalytics
          ∧ recordsStudent (BadgeData.skill_name b) s st
          ∧ (Student.skillBreakdown s ≫= (.!! BadgeData.skill_name b) = None →
             StudentBadgeStatus.progress st = 0%Q
             ∧ StudentBadgeStatus.skillScore st = Some 0%Q
             ∧ st ∈ BadgeData.studentsNotEarned b)).
Proof.
  intros Hb. destruct (getCourseStudentAnalytics api courseId) as [sa|e] eqn:Ha.
  - pose proof (badge_partitions api courseId w sa i b Ha Hb) as Hparts.
    split_and!.
    + apply Forall_forall. intros st Hin.
      destruct (partitionsFor_earned _ _ _ _ _ Hparts Hin) as (s & _ & He & Hst).
      by eapply statusFor_earned_fields.
    + apply Forall_forall. intros st Hin.
      destruct (partitionsFor_notEarned _ _ _ _ _ Hparts Hin) as (s & _ & He & Hst).
      by eapply statusFor_notEarned_fields.
    + intros sa' st [= <-] [Hin|Hin]%elem_of_app.
      * destruct (partitionsFor_earned _ _ _ _ _ Hparts Hin) as (s & Hs & He & Hst).
        exists s. split_and!; [done | by apply statusFor_recordsStudent |].
        intros Hnone. destruct (statusFor_no_entry _ _ _ Hst Hnone) as (_ & _ & ?).
        congruence.
      * destruct (partitionsFor_notEarned _ _ _ _ _ Hparts Hin) as (s & Hs & He & Hst).
        exists s. split_and!; [done | by apply statusFor_recordsStudent |].
        intros Hnone. destruct (statusFor_no_entry _ _ _ Hst Hnone) as (? & ? & _).
        done.
  - destruct (badgesAfter_shape api courseId w) as [_ Hshape].
    destruct (Hshape i b Hb) as [_ Hempty]. rewrite Ha in Hempty.
    rewrite Hempty. simpl. split_and!; [constructor | constructor | done].
Qed.

Lemma status_records_consistent_witness :
  Forall (λ st, StudentBadgeStatus.earned st = true
                ∧ is_Some (StudentBadgeStatus.earnedAt st)
                ∧ StudentBadgeStatus.skillScore st
                  = Some (StudentBadgeStatus.progress st))
    (BadgeData.studentsEarned Sample.recursionBadge).
Proof.
  apply (status_records_consistent Sample.healthy "c1" Sample.dashboard0
           1 Sample.recursionBadge).
  reflexivity.
Defined.

(** ** One badge per skill, in first-seen order *)

Lemma matricesOf_resolved r : matricesOf (Resolved r) = default [] r.
Proof. by destruct r. Qed.

Lemma badgeId_inj : Inj (=) (=) badgeId.
Proof.
  intros i j Hij. unfold badgeId in Hij.
  by apply (inj (String.app "badge-")), (inj pretty) in Hij.
Qed.

Lemma badgesAfter_id api courseId w i b :
  badgesAfter api courseId w !! i = Some b → BadgeData.id b = badgeId i.
Proof.
  intros Hb. destruct (badgesAfter_shape api courseId w) as [_ Hshape].
  destruct (Hshape i b Hb) as [_ Hd].
  destruct (getCourseStudentAnalytics api courseId).
  - by destruct Hd as [? _].
  - by rewrite Hd.
Qed.

(** C2.  Whatever the skill-matrix fetch returns, and whether the
    analytics fetch answers or fails, the badges on display are one per
    distinct skill name of the matrix records: as many badges as there are
    distinct names, no name on two badges, and a name is on a badge exactly
    when it is in some matrix record. *)
Theorem one_badge_per_unique_skill api courseId w r :
  getAllByCourse api courseId = Resolved r →
  let allSkills := skillNamesOf (default [] r) in
  let names := BadgeData.skill_name <$> badgesAfter api courseId w in
  length (badgesAfter api courseId w) = size (list_to_set allSkills : gset string) ∧
  NoDup names ∧
  (∀ skillName, skillName ∈ names ↔ skillName ∈ allSkills).
Proof.
  intros Hm allSkills names.
  assert (names = firstSeen allSkills) as Hnames.
  { unfold names, allSkills. by rewrite badgesAfter_names, Hm, matricesOf_resolved. }
  split_and!.
  - rewrite <- (length_fmap BadgeData.skill_name). fold names. rewrite Hnames.
    rewrite <- (size_list_to_set (C := gset string)) by apply firstSeen_NoDup.
    f_equal. apply set_eq. intros k.
    by rewrite !elem_of_list_to_set, firstSeen_elem_of.
  - rewrite Hnames. apply firstSeen_NoDup.
  - intros k. rewrite Hnames. apply firstSeen_elem_of.
Qed.

Lemma one_badge_per_unique_skill_witness :
  length (badgesAfter Sample.healthy "c1" Sample.dashboard0) = 3
  ∧ length (badgesAfter Sample.noAnalytics "c1" Sample.dashboard0) = 3
  ∧ length (skillNamesOf Sample.matrices) = 5.
Proof.
  split_and!; [| |reflexivity].
  - rewrite (proj1 (one_badge_per_unique_skill Sample.healthy "c1"
                      Sample.dashboard0 (Some Sample.matrices) eq_refl)).
    by vm_compute.
  - rewrite (proj1 (one_badge_per_unique_skill Sample.noAnalytics "c1"
                      Sample.dashboard0 (Some Sample.matrices) eq_refl)).
    by vm_compute.
Defined.

(** C7.  The names the handler collects are all the names of the matrix
    records, and deduplicating them keeps the first occurrence of each:
    no name twice, the same names, and of two names of the result the
    earlier one occurs in the input before every occurrence of the later
    one.  The badge at position [i] of the list on display has the id
    "badge-" followed by [i] in decimal and carries the [i]-th of these
    names; so the ids of two positions differ. *)
Theorem badges_follow_first_seen_order api courseId w r :
  getAllByCourse api courseId = Resolved r →
  let allSkills := skillNamesOf (default [] r) in
  let uniqueSkills := uniqueSkillsOf (collectSkills (default [] r)) in
  let badges := badgesAfter api courseId w in
  collectSkills (default [] r) = allSkills ∧
  uniqueSkills = firstSeen allSkills ∧
  NoDup uniqueSkills ∧
  (∀ skillName, skillName ∈ uniqueSkills ↔ skillName ∈ allSkills) ∧
  (∀ i j x y,
     uniqueSkills !! i = Some x → uniqueSkills !! j = Some y → i < j →
     ∃ a, allSkills !! a = Some x ∧ ∀ a', allSkills !! a' = Some y → a < a') ∧
  length badges = length uniqueSkills ∧
  (∀ i b, badges !! i = Some b →
     BadgeData.id b = "badge-" +:+ pretty i
     ∧ uniqueSkills !! i = Some (BadgeData.skill_name b)) ∧
  (∀ i j b b', badges !! i = Some b → badges !! j = Some b' → i ≠ j →
     BadgeData.id b ≠ BadgeData.id b').
Proof.
  intros Hm allSkills uniqueSkills badges.
  assert (uniqueSkills = firstSeen allSkills) as Hu.
  { unfold uniqueSkills, allSkills.
    by rewrite uniqueSkillsOf_firstSeen, collectSkills_skillNamesOf. }
  destruct (badgesAfter_shape api courseId w) as [Hlen Hshape].
  rewrite Hm, matricesOf_resolved in Hlen, Hshape.
  split_and!.
  - apply collectSkills_skillNamesOf.
  - done.
  - rewrite Hu. apply firstSeen_NoDup.
  - intros k. rewrite Hu. apply firstSeen_elem_of.
  - rewrite Hu. apply firstSeen_order.
  - done.
  - intros i b Hb. split; [by eapply badgesAfter_id | by apply Hshape].
  - intros i j b b' Hb Hb' Hij.
    rewrite (badgesAfter_id _ _ _ _ _ Hb), (badgesAfter_id _ _ _ _ _ Hb').
    intros Heq. by apply badgeId_inj in Heq.
Qed.

Lemma badges_follow_first_seen_order_witness :
  uniqueSkillsOf (collectSkills Sample.matrices)
  = firstSeen (skillNamesOf Sample.matrices)
  ∧ firstSeen (skillNamesOf Sample.matrices)
    = ["Intro to Advanced Topics"; "Recursion"; "Expert Debugging"]
  ∧ BadgeData.id Sample.recursionBadge = "badge-1".
Proof.
  pose proof (badges_follow_first_seen_order Sample.healthy "c1"
                Sample.dashboard0 (Some Sample.matrices) eq_refl) as H.
  cbv zeta in H. destruct H as (_ & Hu & _ & _ & _ & _ & Hid & _).
  split_and!; [exact Hu | reflexivity |].
  exact (proj1 (Hid 1 Sample.recursionBadge eq_refl)).
Defined.

(** ** The two degraded paths *)

Lemma eventsOf_app {St A} (m : M St A) (w : World St) evs :
  trace (m w).2 = trace w ++ evs → eventsOf m w = evs.
Proof. intros H. unfold eventsOf. rewrite H. apply drop_app_length. Qed.

(** C5.  The skill-matrix fetch returns at least one record and the
    analytics fetch fails.  Then [loadBadges] completes normally; the list
    on display has one badge per deduplicated skill, in order, each with
    [studentsEarned] and [studentsNotEarned] empty; loading is off; and the
    run adds to the trace the two requests and one [console.log], so no
    toast and no [console.error]. *)
Theorem analytics_failure_degrades api courseId w m ms e :
  getAllByCourse api courseId = Resolved (Some (m :: ms)) →
  getCourseStudentAnalytics api courseId = Rejected e →
  let uniqueSkills := firstSeen (skillNamesOf (m :: ms)) in
  let badges := badgesAfter api courseId w in
  (loadBadges api courseId w).1 = Normal tt ∧
  BadgeData.skill_name <$> badges = uniqueSkills ∧
  Forall (λ b, BadgeData.studentsEarned b = []
               ∧ BadgeData.studentsNotEarned b = []) badges ∧
  Dashboard.loading (state (loadBadges api courseId w).2) = false ∧
  eventsOf (loadBadges api courseId) w
  = [Request GetAllByCourse courseId;
     Request GetCourseStudentAnalytics courseId;
     ConsoleLog "Could not load student analytics:"] ∧
  (∀ msg, (ToastError msg ∉ eventsOf (loadBadges api courseId) w)
          ∧ (ConsoleError msg ∉ eventsOf (loadBadges api courseId) w)).
Proof.
  intros Hm Ha uniqueSkills badges.
  assert (eventsOf (loadBadges api courseId) w
          = [Request GetAllByCourse courseId;
             Request GetCourseStudentAnalytics courseId;
             ConsoleLog "Could not load student analytics:"]) as Hev.
  { apply eventsOf_app. by rewrite (loadBadges_fallback _ _ _ _ _ _ Hm Ha). }
  split_and!.
  - by rewrite (loadBadges_fallback _ _ _ _ _ _ Hm Ha).
  - unfold badges, uniqueSkills. by rewrite badgesAfter_names, Hm.
  - apply Forall_lookup. intros i b Hb.
    destruct (badgesAfter_shape api courseId w) as [_ Hshape].
    destruct (Hshape i b Hb) as [_ Hempty]. rewrite Ha in Hempty.
    by rewrite Hempty.
  - by rewrite (loadBadges_fallback _ _ _ _ _ _ Hm Ha).
  - done.
  - intros msg. rewrite Hev. split; not_in_events.
Qed.

Lemma analytics_failure_degrades_witness :
  (loadBadges Sample.noAnalytics "c1" Sample.dashboard0).1 = Normal tt
  ∧ BadgeData.skill_name <$> badgesAfter Sample.noAnalytics "c1" Sample.dashboard0
    = ["Intro to Advanced Topics"; "Recursion"; "Expert Debugging"].
Proof.
  pose proof (analytics_failure_degrades Sample.noAnalytics "c1" Sample.dashboard0
                _ _ Sample.networkError eq_refl eq_refl) as H.
  cbv zeta in H. destruct H as (Hnormal & Hnames & _).
  split; [exact Hnormal | exact Hnames].
Defined.

(** C6.  The skill-matrix fetch returns no result or an empty list.  Then
    [loadBadges] completes normally with an empty list on display and
    loading off; the run adds to the trace the skill-matrix request and one
    [console.log]: no analytics request, no toast, no [console.error]. *)
Theorem empty_matrix_is_terminal_success api courseId w r :
  getAllByCourse api courseId = Resolved r →
  r = None ∨ r = Some [] →
  (loadBadges api courseId w).1 = Normal tt ∧
  badgesAfter api courseId w = [] ∧
  Dashboard.loading (state (loadBadges api courseId w).2) = false ∧
  eventsOf (loadBadges api courseId) w
  = [Request GetAllByCourse courseId;
     ConsoleLog "No skill matrix found for course"] ∧
  (∀ arg, Request GetCourseStudentAnalytics arg ∉ eventsOf (loadBadges api courseId) w) ∧
  (∀ msg, (ToastError msg ∉ eventsOf (loadBadges api courseId) w)
          ∧ (ConsoleError msg ∉ eventsOf (loadBadges api courseId) w)).
Proof.
  intros Hm Hr.
  pose proof (loadBadges_no_matrix api courseId w r Hm Hr) as Hrun.
  assert (eventsOf (loadBadges api courseId) w
          = [Request GetAllByCourse courseId;
             ConsoleLog "No skill matrix found for course"]) as Hev.
  { apply eventsOf_app. by rewrite Hrun. }
  unfold badgesAfter. rewrite Hev, Hrun. simpl.
  split_and!; try done.
  - intros arg. not_in_events.
  - intros msg. split; not_in_events.
Qed.

Lemma empty_matrix_is_terminal_success_witness :
  badgesAfter Sample.noMatrix "c1" Sample.dashboard0 = []
  ∧ eventsOf (loadBadges Sample.noMatrix "c1") Sample.dashboard0
    = [Request GetAllByCourse "c1"; ConsoleLog "No skill matrix found for course"].
Proof.
  pose proof (empty_matrix_is_terminal_success Sample.noMatrix "c1"
                Sample.dashboard0 (Some []) eq_refl (or_intror eq_refl)) as H.
  destruct H as (_ & Hnil & _ & Hev & _).
  split; [exact Hnil | exact Hev].
Defined.

(** ** Levels *)

(** On the success path the level of every badge follows the substring
    rule. *)
Lemma success_path_levels api courseId w studentAnalytics i b :
  getCourseStudentAnalytics api courseId = Resolved studentAnalytics →
  badgesAfter api courseId w !! i = Some b →
  BadgeData.level b = classifyLevel (BadgeData.skill_name b)
  ∧ levelBySubstringRule (BadgeData.skill_name b) (BadgeData.level b).
Proof.
  intros Ha Hb. destruct (badgesAfter_shape api courseId w) as [_ Hshape].
  destruct (Hshape i b Hb) as [_ Hd]. rewrite Ha in Hd.
  destruct Hd as (_ & _ & _ & _ & Hlevel & _).
  split; [done|]. rewrite Hlevel. apply classifyLevel_rule.
Qed.

(** On the analytics-failure path the level of every badge is
    [intermediate], whatever the name. *)
Lemma fallback_path_levels api courseId w e i b :
  getCourseStudentAnalytics api courseId = Rejected e →
  badgesAfter api courseId w !! i = Some b →
  BadgeData.level b = intermediate.
Proof.
  intros Ha Hb. destruct (badgesAfter_shape api courseId w) as [_ Hshape].
  destruct (Hshape i b Hb) as [_ Hd]. rewrite Ha in Hd. by rewrite Hd.
Qed.

(** C3.  The skill matrix lists "Intro to Advanced Topics" and the
    analytics fetch fails: the badge on display for that skill has level
    [intermediate], where the substring rule gives [beginner]. *)
Theorem fallback_badge_level_ignores_name :
  badgesAfter Sample.noAnalytics "c1" Sample.dashboard0 !! 0
  = Some Sample.introBadgeNoAnalytics
  ∧ BadgeData.skill_name Sample.introBadgeNoAnalytics = "Intro to Advanced Topics"
  ∧ BadgeData.level Sample.introBadgeNoAnalytics = intermediate
  ∧ levelBySubstringRule "Intro to Advanced Topics" beginner
  ∧ ¬ levelBySubstringRule
        (BadgeData.skill_name Sample.introBadgeNoAnalytics)
        (BadgeData.level Sample.introBadgeNoAnalytics).
Proof.
  split_and!; try reflexivity.
  - apply (classifyLevel_rule "Intro to Advanced Topics").
  - intros (Hbeginner & _). simpl in Hbeginner.
    assert (intermediate = beginner) as Habs; [|discriminate Habs].
    apply Hbeginner. exists "intro". split; [by apply list_elem_of_lookup_2 with 1|].
    by exists "", " to advanced topics".
Qed.

(** C4.  A name whose lower-cased text contains a beginner word and an
    advanced word is classified [beginner], and so is the level of its
    badge whenever the classification runs, that is, on the path on which
    the analytics fetch answers. *)
Theorem beginner_rule_takes_precedence skillName kb ka :
  kb ∈ beginnerWords → ka ∈ advancedWords →
  occursIn kb (JsString.toLowerCase skillName) →
  occursIn ka (JsString.toLowerCase skillName) →
  classifyLevel skillName = beginner ∧
  (∀ api courseId w studentAnalytics i b,
     getCourseStudentAnalytics api courseId = Resolved studentAnalytics →
     badgesAfter api courseId w !! i = Some b →
     BadgeData.skill_name b = skillName →
     BadgeData.level b = beginner).
Proof.
  intros Hkb _ Hb _.
  assert (classifyLevel skillName = beginner) as Hlevel.
  { destruct (classifyLevel_rule skillName) as (Hrule & _). apply Hrule. eauto. }
  split; [done|].
  intros api courseId w sa i b Ha Hi Hname.
  destruct (success_path_levels api courseId w sa i b Ha Hi) as [-> _].
  by rewrite Hname.
Qed.

Lemma beginner_rule_takes_precedence_witness :
  classifyLevel "Intro to Advanced Topics" = beginner.
Proof.
  apply (beginner_rule_takes_precedence "Intro to Advanced Topics" "intro" "advanced").
  - by apply list_elem_of_lookup_2 with 1.
  - by apply list_elem_of_lookup_2 with 0.
  - by exists "", " to advanced topics".
  - by exists "intro to ", " topics".
Defined.

(** ** The student badge lookup *)

Lemma handleSearch_blank api (w : World Search.t) :
  JsString.blank (Search.studentId (state w)) = true →
  handleSearch api w
  = (Normal tt,
     mkWorld (state w) (trace w ++ [ToastError "Please enter a student ID"]) (draws w)).
Proof.
  intros Hblank. unfold handleSearch. run_monad.
  by rewrite truthy_trim_blank, Hblank.
Qed.

Lemma handleSearch_rejected api (w : World Search.t) e :
  JsString.blank (Search.studentId (state w)) = false →
  getStudentEarnedBadges api (Search.studentId (state w)) = Rejected e →
  handleSearch api w
  = (Normal tt,
     mkWorld
       (Search.mk (Search.studentId (state w)) [] 0 false true)
       (trace w ++ [Request GetStudentEarnedBadges (Search.studentId (state w));
                    ConsoleError "Error fetching badges:";
                    ToastError (orFailedToFetch (errorMessage e))])
       (draws w)).
Proof.
  intros Hblank Hreq. unfold handleSearch. run_monad.
  rewrite truthy_trim_blank, Hblank. simpl. rewrite Hreq. simpl.
  by rewrite <- !app_assoc.
Qed.

Lemma handleSearch_resolved api (w : World Search.t) data :
  JsString.blank (Search.studentId (state w)) = false →
  getStudentEarnedBadges api (Search.studentId (state w)) = Resolved data →
  handleSearch api w
  = (Normal tt,
     mkWorld
       (Search.mk (Search.studentId (state w))
          (EarnedBadges.badges data) (EarnedBadges.total_badges data) false true)
       (trace w ++ [Request GetStudentEarnedBadges (Search.studentId (state w));
                    ToastSuccess ("Found " +:+ pretty (EarnedBadges.total_badges data)
                                  +:+ " badges")])
       (draws w)).
Proof.
  intros Hblank Hreq. unfold handleSearch. run_monad.
  rewrite truthy_trim_blank, Hblank. simpl. rewrite Hreq. simpl.
  by rewrite <- !app_assoc.
Qed.

(** C8.  The student id typed in is empty or made of white space only.
    Then [handleSearch] completes normally, sends no request, shows the
    toast "Please enter a student ID", and leaves the component state,
    with the badge list and the count on display, as it was. *)
Theorem blank_student_id_rejected api (w : World Search.t) :
  JsString.blank (Search.studentId (state w)) = true →
  JsString.trim (Search.studentId (state w)) = "" ∧
  (handleSearch api w).1 = Normal tt ∧
  eventsOf (handleSearch api) w = [ToastError "Please enter a student ID"] ∧
  (∀ endpoint arg, Request endpoint arg ∉ eventsOf (handleSearch api) w) ∧
  state (handleSearch api w).2 = state w ∧
  Search.badges (state (handleSearch api w).2) = Search.badges (state w) ∧
  Search.totalBadges (state (handleSearch api w).2) = Search.totalBadges (state w).
Proof.
  intros Hblank. pose proof (handleSearch_blank api w Hblank) as Hrun.
  assert (eventsOf (handleSearch api) w = [ToastError "Please enter a student ID"])
    as Hev.
  { apply eventsOf_app. by rewrite Hrun. }
  rewrite Hev, Hrun. simpl. split_and!; try done.
  - by apply trim_empty_iff_blank.
  - intros endpoint arg. not_in_events.
Qed.

Lemma blank_student_id_rejected_witness :
  eventsOf (handleSearch Sample.healthy) (Sample.search0 "   ")
  = [ToastError "Please enter a student ID"]
  ∧ state (handleSearch Sample.healthy (Sample.search0 "   ")).2
    = state (Sample.search0 "   ").
Proof.
  pose proof (blank_student_id_rejected Sample.healthy (Sample.search0 "   ") eq_refl)
    as (_ & _ & Hev & _ & Hstate & _).
  split; [exact Hev | exact Hstate].
Defined.

(** C9.  The student id typed in is not blank.  If the backend call fails,
    [handleSearch] completes normally with an empty badge list and a count
    of 0 on display, and shows as error toast the message of the failure
    when there is one and it is not empty, and "Failed to fetch badges"
    otherwise.  If the call succeeds, the badge list and the count on display
    are those of the response as they are, whether or not the count is the
    length of the list. *)
Theorem lookup_passes_backend_through api (w : World Search.t) :
  JsString.blank (Search.studentId (state w)) = false →
  let studentId := Search.studentId (state w) in
  let w' := (handleSearch api w).2 in
  (handleSearch api w).1 = Normal tt ∧
  (∀ e, getStudentEarnedBadges api studentId = Rejected e →
     Search.badges (state w') = [] ∧
     Search.totalBadges (state w') = 0%Z ∧
     (∀ msg, errorMessage e = Some msg → msg ≠ "" →
        eventsOf (handleSearch api) w
        = [Request GetStudentEarnedBadges studentId;
           ConsoleError "Error fetching badges:"; ToastError msg]) ∧
     (errorMessage e = None ∨ errorMessage e = Some "" →
        eventsOf (handleSearch api) w
        = [Request GetStudentEarnedBadges studentId;
           ConsoleError "Error fetching badges:";
           ToastError "Failed to fetch badges"])) ∧
  (∀ data, getStudentEarnedBadges api studentId = Resolved data →
     Search.badges (state w') = EarnedBadges.badges data ∧
     Search.totalBadges (state w') = EarnedBadges.total_badges data ∧
     ∀ msg, (ToastError msg ∉ eventsOf (handleSearch api) w)).
Proof.
  intros Hblank studentId w'. unfold w', studentId.
  destruct (getStudentEarnedBadges api (Search.studentId (state w)))
    as [data|e] eqn:Hreq.
  - pose proof (handleSearch_resolved api w data Hblank Hreq) as Hrun.
    split_and!; [by rewrite Hrun | done |].
    intros ? [= <-]. rewrite (eventsOf_app _ _ _ (f_equal (trace ∘ snd) Hrun)).
    rewrite Hrun. simpl. split_and!; [done | done |].
    intros msg. not_in_events.
  - pose proof (handleSearch_rejected api w e Hblank Hreq) as Hrun.
    split_and!; [by rewrite Hrun | | done].
    intros ? [= <-]. rewrite (eventsOf_app _ _ _ (f_equal (trace ∘ snd) Hrun)).
    rewrite Hrun. simpl. split_and!; [done | done | |].
    + intros msg -> Hne. simpl. by destruct msg.
    + by intros [-> | ->].
Qed.

Lemma lookup_passes_backend_through_witness :
  Search.badges (state (handleSearch Sample.noAnalytics (Sample.search0 " s1")).2) = []
  ∧ eventsOf (handleSearch Sample.noAnalytics) (Sample.search0 " s1")
    = [Request GetStudentEarnedBadges " s1";
       ConsoleError "Error fetching badges:"; ToastError "Student not found"]
  ∧ Search.totalBadges (state (handleSearch Sample.healthy (Sample.search0 " s1")).2)
    = 3%Z
  ∧ length (Search.badges (state (handleSearch Sample.healthy (Sample.search0 " s1")).2))
    = 1.
Proof.
  pose proof (lookup_passes_backend_through Sample.noAnalytics
                (Sample.search0 " s1") eq_refl) as H.
  cbv zeta in H. destruct H as (_ & Hfail & _).
  destruct (Hfail _ eq_refl) as (Hnil & _ & Hmsg & _).
  pose proof (lookup_passes_backend_through Sample.healthy
                (Sample.search0 " s1") eq_refl) as H.
  cbv zeta in H. destruct H as (_ & _ & Hok).
  destruct (Hok _ eq_refl) as (Hbadges & Htotal & _).
  split_and!.
  - exact Hnil.
  - apply (Hmsg "Student not found"); [reflexivity | discriminate].
  - rewrite Htotal. reflexivity.
  - rewrite Hbadges. reflexivity.
Defined.

(** * Further properties *)

(** ** Every run of [loadBadges] *)

(** The events of a run, by the outcomes of the two fetches. *)
Lemma loadBadges_events api courseId w :
  eventsOf (loadBadges api courseId) w
  = match getAllByCourse api courseId with
    | Rejected _ =>
        [Request GetAllByCourse courseId;
         ConsoleError "Error loading badges:"; ToastError "Failed to load badges"]
    | Resolved None | Resolved (Some []) =>
        [Request GetAllByCourse courseId; ConsoleLog "No skill matrix found for course"]
    | Resolved (Some (_ :: _)) =>
        match getCourseStudentAnalytics api courseId with
        | Rejected _ =>
            [Request GetAllByCourse courseId;
             Request GetCourseStudentAnalytics courseId;
             ConsoleLog "Could not load student analytics:"]
        | Resolved _ =>
            [Request GetAllByCourse courseId;
             Request GetCourseStudentAnalytics courseId]
        end
    end.
Proof.
  apply eventsOf_app.
  destruct (getAllByCourse api courseId) as [[[|m ms]|]|e] eqn:Hm.
  - by erewrite loadBadges_no_matrix by eauto.
  - destruct (getCourseStudentAnalytics api courseId) as [sa|e] eqn:Ha.
    + by destruct (loadBadges_success api courseId w m ms sa Hm Ha) as (bs & d & -> & _).
    + by erewrite loadBadges_fallback by eauto.
  - by erewrite loadBadges_no_matrix by eauto.
  - by erewrite loadBadges_matrix_rejected by eauto.
Qed.

Lemma loadBadges_settles api courseId w :
  (loadBadges api courseId w).1 = Normal tt
  ∧ Dashboard.loading (state (loadBadges api courseId w).2) = false
  ∧ Dashboard.selectedBadge (state (loadBadges api courseId w).2)
    = Dashboard.selectedBadge (state w)
  ∧ Dashboard.showEarned (state (loadBadges api courseId w).2)
    = Dashboard.showEarned (state w).
Proof.
  destruct (getAllByCourse api courseId) as [[[|m ms]|]|e] eqn:Hm.
  - by erewrite loadBadges_no_matrix by eauto.
  - destruct (getCourseStudentAnalytics api courseId) as [sa|e] eqn:Ha.
    + by destruct (loadBadges_success api courseId w m ms sa Hm Ha) as (bs & d & -> & _).
    + by erewrite loadBadges_fallback by eauto.
  - by erewrite loadBadges_no_matrix by eauto.
  - by erewrite loadBadges_matrix_rejected by eauto.
Qed.

(** X1.  Whatever the backend does, [loadBadges] completes without
    throwing, leaves the loading flag off and the selection of the user
    (expanded badge, earned or in-progress tab) as it was, shows no success
    toast and never calls the earned-badges endpoint. *)
Theorem loadBadges_never_throws api courseId w :
  let w' := (loadBadges api courseId w).2 in
  (loadBadges api courseId w).1 = Normal tt ∧
  Dashboard.loading (state w') = false ∧
  Dashboard.selectedBadge (state w') = Dashboard.selectedBadge (state w) ∧
  Dashboard.showEarned (state w') = Dashboard.showEarned (state w) ∧
  (∀ msg, ToastSuccess msg ∉ eventsOf (loadBadges api courseId) w) ∧
  (∀ arg, Request GetStudentEarnedBadges arg ∉ eventsOf (loadBadges api courseId) w).
Proof.
  intros w'. destruct (loadBadges_settles api courseId w) as (H1 & H2 & H3 & H4).
  split_and!; try done.
  - intros msg. rewrite loadBadges_events.
    destruct (getAllByCourse api courseId) as [[[|m ms]|]|e];
      [| destruct (getCourseStudentAnalytics api courseId) | |]; not_in_events.
  - intros arg. rewrite loadBadges_events.
    destruct (getAllByCourse api courseId) as [[[|m ms]|]|e];
      [| destruct (getCourseStudentAnalytics api courseId) | |]; not_in_events.
Qed.

(** X2.  The skill-matrix fetch fails.  Then the list on display is
    empty, the run logs the failure with [console.error] and shows the toast
    "Failed to load badges", and the analytics are not requested. *)
Theorem matrix_failure_is_reported api courseId w e :
  getAllByCourse api courseId = Rejected e →
  badgesAfter api courseId w = [] ∧
  eventsOf (loadBadges api courseId) w
  = [Request GetAllByCourse courseId;
     ConsoleError "Error loading badges:"; ToastError "Failed to load badges"] ∧
  (∀ arg, Request GetCourseStudentAnalytics arg ∉ eventsOf (loadBadges api courseId) w).
Proof.
  intros Hm. rewrite loadBadges_events, Hm. unfold badgesAfter.
  rewrite (loadBadges_matrix_rejected _ _ _ _ Hm). simpl.
  split_and!; [done | done |]. intros arg. not_in_events.
Qed.

Lemma matrix_failure_is_reported_witness :
  badgesAfter MoreSamples.noServer "c1" Sample.dashboard0 = []
  ∧ eventsOf (loadBadges MoreSamples.noServer "c1") Sample.dashboard0
    = [Request GetAllByCourse "c1";
       ConsoleError "Error loading badges:"; ToastError "Failed to load badges"].
Proof.
  pose proof (matrix_failure_is_reported MoreSamples.noServer "c1"
                Sample.dashboard0 Sample.networkError eq_refl) as (Hnil & Hev & _).
  split; [exact Hnil | exact Hev].
Defined.

(** X3.  In every run the requests go out in this order: first the
    skill matrix of the course, then, exactly when that fetch returned at
    least one record, the analytics of the same course, and nothing else.
    An error toast is shown exactly when the skill-matrix fetch failed. *)
Theorem requests_in_order api courseId w :
  let events := eventsOf (loadBadges api courseId) w in
  let hasMatrix := ∃ m ms, getAllByCourse api courseId = Resolved (Some (m :: ms)) in
  (hasMatrix →
     filter (λ ev, isRequest ev = true) events
     = [Request GetAllByCourse courseId; Request GetCourseStudentAnalytics courseId]) ∧
  (¬ hasMatrix →
     filter (λ ev, isRequest ev = true) events = [Request GetAllByCourse courseId]) ∧
  ((∃ msg, ToastError msg ∈ events) ↔ ∃ e, getAllByCourse api courseId = Rejected e).
Proof.
  intros events hasMatrix. unfold events, hasMatrix. rewrite loadBadges_events.
  destruct (getAllByCourse api courseId) as [[[|m ms]|]|e] eqn:Hm.
  - split_and!; [by intros (? & ? & ?) | done |].
    split; [intros [msg Hin]; exfalso; revert Hin; not_in_events | by intros [? ?]].
  - split_and!.
    + intros _. by destruct (getCourseStudentAnalytics api courseId).
    + intros Hno. destruct Hno. eauto.
    + split; [|by intros [? ?]]. intros [msg Hin]. exfalso. revert Hin.
      destruct (getCourseStudentAnalytics api courseId); not_in_events.
  - split_and!; [by intros (? & ? & ?) | done |].
    split; [intros [msg Hin]; exfalso; revert Hin; not_in_events | by intros [? ?]].
  - split_and!; [by intros (? & ? & ?) | done |].
    split; [by eauto|]. intros _. exists "Failed to load badges".
    by apply list_elem_of_lookup_2 with 2.
Qed.

Lemma requests_in_order_witness :
  filter (λ ev, isRequest ev = true)
    (eventsOf (loadBadges Sample.noAnalytics "c1") Sample.dashboard0)
  = [Request GetAllByCourse "c1"; Request GetCourseStudentAnalytics "c1"].
Proof.
  apply (requests_in_order Sample.noAnalytics "c1" Sample.dashboard0).
  by eexists _, _.
Defined.

(** ** Time stamps *)

Lemma stampsFrom_app stamp start n m :
  stampsFrom stamp start (n + m)
  = stampsFrom stamp start n ++ stampsFrom stamp (start + n) m.
Proof. unfold stampsFrom. by rewrite seq_app, fmap_app. Qed.

Lemma processStudent_stamps stamp skillName E N student (w : World Dashboard.t) E' N' w' :
  processStudent stamp skillName (E, N) student w = (Normal (E', N'), w') →
  ∃ Ea, E' = E ++ Ea
        ∧ StudentBadgeStatus.earnedAt <$> Ea = stampsFrom stamp (draws w) (length Ea)
        ∧ draws w' = draws w + length Ea.
Proof.
  unfold processStudent.
  destruct (Student.skillBreakdown student ≫= (.!! skillName)) as [d|]; simpl.
  - destruct (Qle_bool 80 (orZero (SkillData.score d)));
      unfold bind, ret, randomPastYearISO; simpl; intros [= <- <- <-].
    + eexists [_]. simpl. split_and!; [done | done | lia].
    + exists []. rewrite app_nil_r. simpl. split_and!; [done | done | lia].
  - unfold ret. intros [= <- <- <-].
    exists []. rewrite app_nil_r. simpl. split_and!; [done | done | lia].
Qed.

Lemma forEach_processStudent_stamps stamp skillName students :
  ∀ E N (w : World Dashboard.t) E' N' w',
    forEachM (processStudent stamp skillName) students (E, N) w = (Normal (E', N'), w') →
    ∃ Ea, E' = E ++ Ea
          ∧ StudentBadgeStatus.earnedAt <$> Ea = stampsFrom stamp (draws w) (length Ea)
          ∧ draws w' = draws w + length Ea.
Proof.
  induction students as [|s students IH]; intros E N w E' N' w' Hrun.
  - simpl in Hrun. unfold ret in Hrun. injection Hrun as <- <- <-.
    exists []. rewrite app_nil_r. simpl. split_and!; [done | done | lia].
  - rewrite forEachM_cons in Hrun.
    destruct (processStudent stamp skillName (E, N) s w) as [[[E1 N1]|e] w1] eqn:H1;
      [|done].
    destruct (processStudent_stamps _ _ _ _ _ _ _ _ _ H1) as (Ea & -> & Hst1 & Hd1).
    destruct (IH _ _ _ _ _ _ Hrun) as (Eb & -> & Hst2 & Hd2).
    exists (Ea ++ Eb). rewrite <- app_assoc, fmap_app, length_app, stampsFrom_app.
    rewrite Hst1, Hst2, Hd1. split_and!; [done | done | lia].
Qed.

Lemma skillBadge_stamps stamp studentAnalytics skillName index (w : World Dashboard.t) b w' :
  skillBadge stamp studentAnalytics skillName index w = (Normal b, w') →
  StudentBadgeStatus.earnedAt <$> BadgeData.studentsEarned b
  = stampsFrom stamp (draws w) (length (BadgeData.studentsEarned b))
  ∧ draws w' = draws w + length (BadgeData.studentsEarned b).
Proof.
  unfold skillBadge.
  destruct (studentAnalytics ≫= StudentAnalytics.students) as [students|]; simpl.
  - unfold bind.
    destruct (forEachM (processStudent stamp skillName) students ([], []) w)
      as [[[E N]|e] w1] eqn:Hrun; [|done].
    unfold ret. intros [= <- <-]. simpl.
    destruct (forEach_processStudent_stamps _ _ _ _ _ _ _ _ _ Hrun) as (Ea & -> & ? & ?).
    by simpl.
  - unfold bind, ret. simpl. intros [= <- <-]. simpl. split; [done | lia].
Qed.

Lemma mapWithIndex_skillBadge_stamps stamp studentAnalytics skills :
  ∀ index (w : World Dashboard.t) bs w',
    mapWithIndexM (skillBadge stamp studentAnalytics) skills index w = (Normal bs, w') →
    earnedStamps bs = stampsFrom stamp (draws w) (length (earnedStamps bs))
    ∧ draws w' = draws w + length (earnedStamps bs).
Proof.
  unfold earnedStamps.
  induction skills as [|k skills IH]; intros index w bs w' Hrun.
  - simpl in Hrun. unfold ret in Hrun. injection Hrun as <- <-.
    simpl. split; [done | lia].
  - rewrite mapWithIndexM_cons in Hrun.
    destruct (skillBadge stamp studentAnalytics k index w) as [[b|e] w1] eqn:H1; [|done].
    destruct (mapWithIndexM (skillBadge stamp studentAnalytics) skills (S index) w1)
      as [[bs'|e] w2] eqn:H2; [|done].
    injection Hrun as <- <-.
    destruct (skillBadge_stamps _ _ _ _ _ _ _ H1) as [Hst1 Hd1].
    destruct (IH _ _ _ _ H2) as [Hst2 Hd2].
    rewrite fmap_cons, concat_cons, length_app, stampsFrom_app, length_fmap.
    rewrite <- Hd1, <- Hst2, Hst1. split; [done | lia].
Qed.

Lemma earnedStamps_no_earned bs :
  Forall (λ b, BadgeData.studentsEarned b = []) bs → earnedStamps bs = [].
Proof.
  unfold earnedStamps. induction 1 as [|b bs Hb _ IH]; [done|].
  by rewrite fmap_cons, concat_cons, Hb, IH.
Qed.

(** The stamps of the success path. *)
Lemma loadBadges_success_stamps api courseId w m ms studentAnalytics :
  getAllByCourse api courseId = Resolved (Some (m :: ms)) →
  getCourseStudentAnalytics api courseId = Resolved studentAnalytics →
  earnedStamps (badgesAfter api courseId w)
  = stampsFrom (stamp api) (draws w) (length (earnedStamps (badgesAfter api courseId w)))
  ∧ draws (loadBadges api courseId w).2
    = draws w + length (earnedStamps (badgesAfter api courseId w)).
Proof.
  intros Hm Ha. unfold badgesAfter, loadBadges. run_monad.
  rewrite Hm. simpl. rewrite Ha. simpl.
  match goal with
  | |- context [mapWithIndexM ?f ?l ?i ?w0] =>
      destruct (mapWithIndexM f l i w0) as [[bs|e'] w1] eqn:Hrun
  end.
  - simpl. by apply mapWithIndex_skillBadge_stamps in Hrun.
  - match type of Hrun with
    | mapWithIndexM _ ?l ?i ?w0 = _ =>
        destruct (mapWithIndex_skillBadge_run (stamp api) studentAnalytics l i w0)
          as (? & ? & Hok & _)
    end. congruence.
Qed.

(** X4.  In every run the earned records get their time stamps in the
    order in which the records are built, badge by badge and student by
    student: the [k]-th earned record carries the [k]-th stamp drawn in the
    run.  A stamp is drawn for every earned record and for nothing else. *)
Theorem one_stamp_per_earned_record api courseId w :
  let w' := (loadBadges api courseId w).2 in
  let stamps := earnedStamps (badgesAfter api courseId w) in
  stamps = stampsFrom (stamp api) (draws w) (length stamps) ∧
  draws w' = draws w + length stamps.
Proof.
  cbv zeta.
  destruct (getAllByCourse api courseId) as [[[|m ms]|]|e] eqn:Hm.
  - unfold badgesAfter. erewrite loadBadges_no_matrix by eauto.
    simpl. split; [done | lia].
  - destruct (getCourseStudentAnalytics api courseId) as [sa|e] eqn:Ha.
    + by apply loadBadges_success_stamps with m ms sa.
    + unfold badgesAfter. erewrite loadBadges_fallback by eauto. simpl.
      rewrite earnedStamps_no_earned; [simpl; split; [done | lia]|].
      apply Forall_lookup. intros i b Hb. rewrite list_lookup_imap in Hb.
      destruct (_ !! i); simpl in Hb; by simplify_eq.
  - unfold badgesAfter. erewrite loadBadges_no_matrix by eauto.
    simpl. split; [done | lia].
  - unfold badgesAfter. erewrite loadBadges_matrix_rejected by eauto.
    simpl. split; [done | lia].
Qed.

(** ** The partitions in more detail *)

Lemma hasEarnedOf_Qle_bool s skillName :
  hasEarnedOf s skillName = true ↔ Qle_bool 80 (scoreFor s skillName) = true.
Proof. by rewrite hasEarnedOf_true, Qle_bool_iff. Qed.

(** X5.  Each partition of a badge lists its students in the order of the
    analytics response: [studentsEarned] is the sub-list of the students
    with a score of at least 80, [studentsNotEarned] the sub-list of the
    others. *)
Theorem partitions_keep_response_order api courseId w studentAnalytics i b :
  getCourseStudentAnalytics api courseId = Resolved studentAnalytics →
  badgesAfter api courseId w !! i = Some b →
  let passes := λ s, Qle_bool 80 (scoreFor s (BadgeData.skill_name b)) = true in
  statusKey <$> BadgeData.studentsEarned b
  = studentKey <$> filter passes (studentsOf studentAnalytics) ∧
  statusKey <$> BadgeData.studentsNotEarned b
  = studentKey <$> filter (λ s, ¬ passes s) (studentsOf studentAnalytics).
Proof.
  intros Ha Hb passes.
  destruct (badge_partitions api courseId w studentAnalytics i b Ha Hb) as [HE HN].
  rewrite (Forall2_statusFor_keys _ _ _ HE), (Forall2_statusFor_keys _ _ _ HN).
  split; f_equal; apply list_filter_iff; intros s; unfold passes;
    by rewrite hasEarnedOf_Qle_bool.
Qed.

Lemma partitions_keep_response_order_witness :
  statusKey <$> BadgeData.studentsNotEarned Sample.recursionBadge
  = [("s2", "Bob"); ("s3", "Cyd")].
Proof.
  rewrite (proj2 (partitions_keep_response_order Sample.healthy "c1"
                    Sample.dashboard0 Sample.analytics 1 Sample.recursionBadge
                    eq_refl eq_refl)).
  by vm_compute.
Defined.

(** X6.  The number shown as total for a badge (line 230) is the number
    of students of the analytics response, the same for every badge; when
    the analytics fetch failed it is 0 for every badge. *)
Theorem totalStudents_counts_response api courseId w i b :
  badgesAfter api courseId w !! i = Some b →
  totalStudents b
  = match getCourseStudentAnalytics api courseId with
    | Resolved studentAnalytics => length (studentsOf studentAnalytics)
    | Rejected _ => 0
    end.
Proof.
  intros Hb. unfold totalStudents.
  destruct (getCourseStudentAnalytics api courseId) as [sa|e] eqn:Ha.
  - pose proof (partitionsFor_keys _ _ _ _
                  (badge_partitions api courseId w sa i b Ha Hb)) as Hperm.
    apply Permutation_length in Hperm.
    by rewrite !length_fmap, length_app in Hperm.
  - destruct (badgesAfter_shape api courseId w) as [_ Hshape].
    destruct (Hshape i b Hb) as [_ Hempty]. rewrite Ha in Hempty. by rewrite Hempty.
Qed.

Lemma totalStudents_counts_response_witness :
  totalStudents Sample.recursionBadge = 3
  ∧ totalStudents Sample.introBadgeNoAnalytics = 0.
Proof.
  split.
  - exact (totalStudents_counts_response Sample.healthy "c1" Sample.dashboard0
             1 Sample.recursionBadge eq_refl).
  - exact (totalStudents_counts_response Sample.noAnalytics "c1" Sample.dashboard0
             0 Sample.introBadgeNoAnalytics eq_refl).
Defined.

(** X7.  The analytics fetch answers, but with no data, no list of
    students or an empty list.  Then every badge has both partitions empty
    and no time stamp is drawn. *)
Theorem no_students_no_records api courseId w studentAnalytics :
  getCourseStudentAnalytics api courseId = Resolved studentAnalytics →
  studentsOf studentAnalytics = [] →
  Forall (λ b, BadgeData.studentsEarned b = [] ∧ BadgeData.studentsNotEarned b = [])
    (badgesAfter api courseId w) ∧
  draws (loadBadges api courseId w).2 = draws w.
Proof.
  intros Ha Hnone.
  assert (Forall (λ b, BadgeData.studentsEarned b = []
                       ∧ BadgeData.studentsNotEarned b = [])
            (badgesAfter api courseId w)) as Hall.
  { apply Forall_lookup. intros i b Hb.
    destruct (badge_partitions api courseId w studentAnalytics i b Ha Hb) as [HE HN].
    rewrite Hnone in HE, HN.
    by apply Forall2_nil_inv_l in HE, HN. }
  split; [done|].
  destruct (getAllByCourse api courseId) as [[[|m ms]|]|e] eqn:Hm.
  - by erewrite loadBadges_no_matrix by eauto.
  - destruct (loadBadges_success_stamps api courseId w m ms studentAnalytics Hm Ha)
      as [_ ->].
    rewrite earnedStamps_no_earned; [simpl; lia|].
    eapply Forall_impl; [exact Hall|]. by intros b [? _].
  - by erewrite loadBadges_no_matrix by eauto.
  - by erewrite loadBadges_matrix_rejected by eauto.
Qed.

Lemma no_students_no_records_witness :
  draws (loadBadges MoreSamples.noStudents "c1" Sample.dashboard0).2 = 0.
Proof.
  exact (proj2 (no_students_no_records MoreSamples.noStudents "c1" Sample.dashboard0
                  (Some (StudentAnalytics.mk None)) eq_refl eq_refl)).
Defined.

(** ** What does not depend on the analytics *)

Lemma badgesAfter_frame api courseId w i b :
  badgesAfter api courseId w !! i = Some b →
  badgeFrame b = badgeFrame (emptyBadge (BadgeData.skill_name b) i).
Proof.
  intros Hb. destruct (badgesAfter_shape api courseId w) as [_ Hshape].
  destruct (Hshape i b Hb) as [_ Hd]. unfold badgeFrame.
  destruct (getCourseStudentAnalytics api courseId).
  - destruct Hd as (-> & -> & -> & _ & _ & -> & _). done.
  - by rewrite Hd at 1 2 3 5.
Qed.

(** X8.  Id, name, description, skill name and type of the badges on
    display depend on the skill-matrix fetch only: two runs that get the
    same skill-matrix outcome show the same badges up to level and students,
    whatever the analytics fetch does and whatever was on display before. *)
Theorem badge_frames_depend_on_matrix_only api1 api2 courseId1 courseId2 w1 w2 :
  getAllByCourse api1 courseId1 = getAllByCourse api2 courseId2 →
  badgeFrame <$> badgesAfter api1 courseId1 w1
  = badgeFrame <$> badgesAfter api2 courseId2 w2.
Proof.
  intros Hsame.
  destruct (badgesAfter_shape api1 courseId1 w1) as [Hlen1 Hshape1].
  destruct (badgesAfter_shape api2 courseId2 w2) as [Hlen2 Hshape2].
  rewrite Hsame in Hlen1, Hshape1.
  apply list_eq_same_length with (length (badgesAfter api1 courseId1 w1));
    [by rewrite !length_fmap, Hlen1, Hlen2 | by rewrite length_fmap |].
  intros i f1 f2 _ H1 H2. rewrite list_lookup_fmap in H1, H2.
  destruct (badgesAfter api1 courseId1 w1 !! i) as [b1|] eqn:Hb1; [|done].
  destruct (badgesAfter api2 courseId2 w2 !! i) as [b2|] eqn:Hb2; [|done].
  simpl in H1, H2. simplify_eq.
  rewrite (badgesAfter_frame _ _ _ _ _ Hb1), (badgesAfter_frame _ _ _ _ _ Hb2).
  destruct (Hshape1 i b1 Hb1) as [Hk1 _]. destruct (Hshape2 i b2 Hb2) as [Hk2 _].
  congruence.
Qed.

Lemma badge_frames_depend_on_matrix_only_witness :
  badgeFrame <$> badgesAfter Sample.healthy "c1" Sample.dashboard0
  = badgeFrame <$> badgesAfter Sample.noAnalytics "c2" MoreSamples.loaded.
Proof.
  apply (badge_frames_depend_on_matrix_only Sample.healthy Sample.noAnalytics).
  reflexivity.
Defined.

(** ** The screen after a load *)


(** ** Rendering an in-progress student *)

(** X10.  For a student listed under "In Progress" of a badge on display
    the progress is below 80: the "Ready to earn!" text is never chosen,
    the percentage is never green, and the progress bar is never green. *)
Theorem in_progress_never_green api courseId w i b st :
  badgesAfter api courseId w !! i = Some b →
  st ∈ BadgeData.studentsNotEarned b →
  (StudentBadgeStatus.progress st < 80)%Q ∧
  readyToEarn (StudentBadgeStatus.progress st) = false ∧
  progressTextColor (StudentBadgeStatus.progress st) ≠ "text-green-600" ∧
  getProgressColor (StudentBadgeStatus.progress st) ≠ "bg-green-500".
Proof.
  intros Hb Hst.
  assert (Qle_bool 80 (StudentBadgeStatus.progress st) = false) as H80.
  { destruct (getCourseStudentAnalytics api courseId) as [sa|e] eqn:Ha.
    - pose proof (badge_partitions api courseId w sa i b Ha Hb) as Hparts.
      destruct (partitionsFor_notEarned _ _ _ _ _ Hparts Hst)
        as (s & _ & He & (_ & _ & _ & -> & _)).
      exact He.
    - destruct (badgesAfter_shape api courseId w) as [_ Hshape].
      destruct (Hshape i b Hb) as [_ Hempty]. rewrite Ha in Hempty.
      rewrite Hempty in Hst. by apply elem_of_nil in Hst. }
  assert (StudentBadgeStatus.progress st < 80)%Q as Hlt.
  { apply Qnot_le_lt. intros Hle%Qle_bool_iff. congruence. }
  assert (Qle_bool 90 (StudentBadgeStatus.progress st) = false) as H90.
  { apply not_true_iff_false. intros Hle%Qle_bool_iff.
    apply (Qlt_not_le _ _ Hlt). by apply Qle_trans with 90%Q. }
  unfold readyToEarn, progressTextColor, getProgressColor. rewrite H80, H90.
  split_and!; [done | done | |].
  - by destruct (Qle_bool 60 (StudentBadgeStatus.progress st)).
  - by destruct (Qle_bool 70 (StudentBadgeStatus.progress st)),
         (Qle_bool 50 (StudentBadgeStatus.progress st)).
Qed.

Lemma in_progress_never_green_witness :
  getProgressColor (0 # 1) ≠ "bg-green-500".
Proof.
  apply (in_progress_never_green Sample.healthy "c1" Sample.dashboard0 1
           Sample.recursionBadge
           (StudentBadgeStatus.mk "s2" "Bob" false 0 None (Some 0%Q))).
  - reflexivity.
  - by apply list_elem_of_lookup_2 with 0.
Defined.

(** X11.  The icon colour [colors[index % 3]] is defined for every
    index; the colours repeat with period 3 and two neighbouring badges never
    get the same colour. *)
Theorem iconColor_cycles index :
  is_Some (iconColor index) ∧
  iconColor (index + 3) = iconColor index ∧
  iconColor (S index) ≠ iconColor index.
Proof.
  unfold iconColor.
  assert (index mod 3 < 3) as Hlt by (apply Nat.mod_upper_bound; lia).
  assert ((index + 3) mod 3 = index mod 3) as Hper.
  { replace (index + 3) with (index + 1 * 3) by lia. by rewrite Nat.Div0.mod_add. }
  assert (S index mod 3 = S (index mod 3) mod 3) as Hs.
  { replace (S index) with (1 + index) by lia.
    rewrite <- Nat.Div0.add_mod_idemp_r. done. }
  rewrite Hper, Hs.
  destruct (index mod 3) as [|[|[|n]]]; [by eauto..|lia].
Qed.

(** ** Expanding and collapsing a badge *)

Lemma toggleBadge_run badgeId (w : World Dashboard.t) :
  toggleBadge badgeId w
  = (Normal tt,
     mkWorld
       (if bool_decide (Dashboard.selectedBadge (state w) = Some badgeId)
        then Dashboard.mk (Dashboard.badges (state w)) (Dashboard.loading (state w))
               None (Dashboard.showEarned (state w))
        else Dashboard.mk (Dashboard.badges (state w)) (Dashboard.loading (state w))
               (Some badgeId) true)
       (trace w) (draws w)).
Proof.
  unfold toggleBadge, setSelectedBadge, setShowEarned. run_monad.
  by case_bool_decide.
Qed.

(** X12.  [toggleBadge] collapses the badge if it is the expanded one and
    otherwise expands it on the earned tab; it touches neither the badge
    list nor the loading flag and emits nothing.  Two clicks on the same
    badge do not always restore the screen: the badge is back to where it
    was, but another badge that was expanded stays collapsed, and the tab is
    the earned one. *)
Theorem toggleBadge_behaviour badgeId (w : World Dashboard.t) :
  let w1 := (toggleBadge badgeId w).2 in
  let w2 := (toggleBadge badgeId w1).2 in
  (toggleBadge badgeId w).1 = Normal tt ∧
  Dashboard.badges (state w1) = Dashboard.badges (state w) ∧
  Dashboard.loading (state w1) = Dashboard.loading (state w) ∧
  trace w1 = trace w ∧
  (Dashboard.selectedBadge (state w) = Some badgeId →
   Dashboard.selectedBadge (state w1) = None
   ∧ Dashboard.showEarned (state w1) = Dashboard.showEarned (state w)) ∧
  (Dashboard.selectedBadge (state w) ≠ Some badgeId →
   Dashboard.selectedBadge (state w1) = Some badgeId
   ∧ Dashboard.showEarned (state w1) = true) ∧
  Dashboard.selectedBadge (state w2)
  = (if bool_decide (Dashboard.selectedBadge (state w) = Some badgeId)
     then Some badgeId else None) ∧
  Dashboard.showEarned (state w2) = true.
Proof.
  cbv zeta. rewrite !toggleBadge_run. simpl.
  case_bool_decide as Hsel; simpl.
  - by split_and!.
  - rewrite bool_decide_eq_true_2 by done. simpl. by split_and!.
Qed.

(** X13.  With the badges of a load on display, at most one badge is
    expanded, whatever is selected; and a click on a collapsed badge leaves
    exactly that badge expanded. *)
Theorem at_most_one_badge_expanded api courseId w0 (w : World Dashboard.t) i j b b' :
  Dashboard.badges (state w) = badgesAfter api courseId w0 →
  Dashboard.badges (state w) !! i = Some b →
  Dashboard.badges (state w) !! j = Some b' →
  (isExpanded (state w) b = true → isExpanded (state w) b' = true → i = j) ∧
  (isExpanded (state w) b = false →
   (isExpanded (state (toggleBadge (BadgeData.id b) w).2) b' = true ↔ i = j)).
Proof.
  intros Hbadges Hb Hb'. rewrite Hbadges in Hb, Hb'.
  pose proof (badgesAfter_id _ _ _ _ _ Hb) as Hid.
  pose proof (badgesAfter_id _ _ _ _ _ Hb') as Hid'.
  unfold isExpanded. rewrite toggleBadge_run. simpl. split.
  - intros H1%bool_decide_eq_true H2%bool_decide_eq_true.
    rewrite H1 in H2. injection H2 as H2. rewrite Hid, Hid' in H2.
    by apply badgeId_inj in H2.
  - intros H1. rewrite H1. simpl. rewrite bool_decide_eq_true. split.
    + intros [= H2]. rewrite Hid, Hid' in H2. by apply badgeId_inj in H2.
    + intros <-. by simplify_eq.
Qed.

Lemma at_most_one_badge_expanded_witness :
  isExpanded (state (toggleBadge "badge-1" MoreSamples.loaded).2) Sample.recursionBadge
  = true.
Proof.
  apply (proj2 (at_most_one_badge_expanded Sample.healthy "c1" Sample.dashboard0
                  MoreSamples.loaded 1 1 Sample.recursionBadge Sample.recursionBadge
                  eq_refl eq_refl eq_refl));
    reflexivity.
Defined.

(** ** Level colours of the lookup *)

Lemma toLowerCaseUnit_idemp c :
  JsString.toLowerCaseUnit (JsString.toLowerCaseUnit c) = JsString.toLowerCaseUnit c.
Proof. by destruct c as [[] [] [] [] [] [] [] []]. Qed.

Lemma toLowerCase_idemp s :
  JsString.toLowerCase (JsString.toLowerCase s) = JsString.toLowerCase s.
Proof.
  induction s as [|c s IH]; simpl; [done|]. by rewrite toLowerCaseUnit_idemp, IH.
Qed.

Lemma toLowerCase_app s1 s2 :
  JsString.toLowerCase (s1 +:+ s2)
  = JsString.toLowerCase s1 +:+ JsString.toLowerCase s2.
Proof. induction s1 as [|c s1 IH]; simpl; [done|]. by rewrite IH. Qed.

(** X14.  The label classes and the icon class of a level always have
    the same hue: blue, yellow, purple or red for the four known levels in
    any mix of upper and lower case, and gray for every other string. *)
Theorem level_colours_agree level :
  ∃ hue,
    getBadgeLevelColor level
    = "bg-" +:+ hue +:+ "-100 text-" +:+ hue +:+ "-800 border-" +:+ hue +:+ "-300" ∧
    getBadgeIconColor level = "bg-" +:+ hue +:+ "-500" ∧
    hue ∈ ["blue"; "yellow"; "purple"; "red"; "gray"] ∧
    (hue = "gray" ↔
     JsString.toLowerCase level ∉ ["beginner"; "intermediate"; "advanced"; "expert"]) ∧
    getBadgeLevelColor (JsString.toLowerCase level) = getBadgeLevelColor level ∧
    getBadgeIconColor (JsString.toLowerCase level) = getBadgeIconColor level.
Proof.
  unfold getBadgeLevelColor, getBadgeIconColor. cbv zeta.
  rewrite toLowerCase_idemp.
  repeat case_decide;
    [exists "blue" | exists "yellow" | exists "purple" | exists "red" | exists "gray"];
    (split_and!; try done; [rewrite !elem_of_cons; tauto|]).
  all: rewrite !not_elem_of_cons.
  1-4: split; [discriminate | intros (? & ? & ? & ? & _); congruence].
  split; [intros _|done]. split_and!; try done. apply not_elem_of_nil.
Qed.

(** ** Levels of longer names *)

Lemma string_app_assoc (s1 s2 s3 : string) :
  (s1 +:+ s2) +:+ s3 = s1 +:+ s2 +:+ s3.
Proof.
  induction s1 as [|c s1 IH]; [done|].
  change ((String c s1 +:+ s2) +:+ s3) with (String c ((s1 +:+ s2) +:+ s3)).
  change (String c s1 +:+ s2 +:+ s3) with (String c (s1 +:+ s2 +:+ s3)).
  by rewrite IH.
Qed.

Lemma occursIn_extend kw s pre post :
  occursIn kw s → occursIn kw (pre +:+ s +:+ post).
Proof.
  intros (p & q & ->). exists (pre +:+ p), (q +:+ post).
  by rewrite !string_app_assoc.
Qed.

Lemma classifyLevel_beginner_iff skillName :
  classifyLevel skillName = beginner
  ↔ ∃ kw, kw ∈ beginnerWords ∧ occursIn kw (JsString.toLowerCase skillName).
Proof.
  rewrite <- includes_any_beginner. unfold classifyLevel. cbv zeta.
  set (bg := _ || _ || _). set (ad := _ || _ || _).
  by destruct bg, ad.
Qed.

Lemma classifyLevel_intermediate_iff skillName :
  classifyLevel skillName = intermediate
  ↔ ¬ (∃ kw, kw ∈ beginnerWords ∧ occursIn kw (JsString.toLowerCase skillName))
    ∧ ¬ (∃ kw, kw ∈ advancedWords ∧ occursIn kw (JsString.toLowerCase skillName)).
Proof.
  rewrite <- includes_any_beginner, <- includes_any_advanced.
  unfold classifyLevel. cbv zeta.
  set (bg := _ || _ || _). set (ad := _ || _ || _).
  destruct bg, ad; split; try done; intros [? ?]; done.
Qed.

(** X15.  Adding text before or after a skill name never lowers what the
    classifier found in it: a beginner name stays beginner, and a name that
    is not intermediate does not become intermediate.  So only an
    intermediate name can change level by being extended. *)
Theorem level_survives_extension skillName pre post :
  (classifyLevel skillName = beginner →
   classifyLevel (pre +:+ skillName +:+ post) = beginner) ∧
  (classifyLevel skillName ≠ intermediate →
   classifyLevel (pre +:+ skillName +:+ post) ≠ intermediate).
Proof.
  assert (∀ kw, occursIn kw (JsString.toLowerCase skillName) →
            occursIn kw (JsString.toLowerCase (pre +:+ skillName +:+ post))) as Hext.
  { intros kw H. rewrite !toLowerCase_app. by apply occursIn_extend. }
  split.
  - rewrite !classifyLevel_beginner_iff. intros (kw & ? & ?). eauto.
  - rewrite !classifyLevel_intermediate_iff. intros Hnot [Hb Ha]. apply Hnot.
    split; intros (kw & ? & ?); [apply Hb | apply Ha]; eauto.
Qed.

(** ** Every run of [handleSearch] *)

(** X16.  Whatever the backend does, [handleSearch] completes without
    throwing and leaves the typed student id as it was.  For a blank id it
    sends nothing; otherwise it sends exactly one request, with the id as
    typed (not trimmed), and ends with the loading flag off and the
    searched flag on. *)
Theorem handleSearch_settles api (w : World Search.t) :
  let studentId := Search.studentId (state w) in
  let w' := (handleSearch api w).2 in
  let requests := filter (λ ev, isRequest ev = true) (eventsOf (handleSearch api) w) in
  (handleSearch api w).1 = Normal tt ∧
  Search.studentId (state w') = studentId ∧
  (JsString.blank studentId = true → requests = [] ∧ state w' = state w) ∧
  (JsString.blank studentId = false →
   requests = [Request GetStudentEarnedBadges studentId]
   ∧ Search.loading (state w') = false
   ∧ Search.searched (state w') = true).
Proof.
  cbv zeta. destruct (JsString.blank (Search.studentId (state w))) eqn:Hblank.
  - rewrite (eventsOf_app _ _ _ (f_equal (trace ∘ snd) (handleSearch_blank api w Hblank))).
    rewrite (handleSearch_blank api w Hblank). simpl. by split_and!.
  - destruct (getStudentEarnedBadges api (Search.studentId (state w)))
      as [data|e] eqn:Hreq.
    + rewrite (eventsOf_app _ _ _
                 (f_equal (trace ∘ snd) (handleSearch_resolved api w data Hblank Hreq))).
      rewrite (handleSearch_resolved api w data Hblank Hreq). simpl. by split_and!.
    + rewrite (eventsOf_app _ _ _
                 (f_equal (trace ∘ snd) (handleSearch_rejected api w e Hblank Hreq))).
      rewrite (handleSearch_rejected api w e Hblank Hreq). simpl. by split_and!.
Qed.





(** X18.  What is shown under the search box after [handleSearch]: for a
    blank id the same as before; after a failed lookup the summary with
    total 0 over "No badges found"; after a successful one the summary with
    the total of the response, over the list if it has badges and over "No
    badges found" if it has none, whatever the total says. *)
Theorem view_after_search api (w : World Search.t) :
  let studentId := Search.studentId (state w) in
  let view := searchView (state (handleSearch api w).2) in
  (JsString.blank studentId = true → view = searchView (state w)) ∧
  (JsString.blank studentId = false →
   match getStudentEarnedBadges api studentId with
   | Rejected _ => view = SummaryAndNoBadges studentId 0
   | Resolved data =>
       match EarnedBadges.badges data with
       | [] => view = SummaryAndNoBadges studentId (EarnedBadges.total_badges data)
       | _ :: _ =>
           view = SummaryAndList studentId (EarnedBadges.total_badges data)
                    (EarnedBadges.badges data)
       end
   end).
Proof.
  cbv zeta. split; intros Hblank.
  - by rewrite (handleSearch_blank api w Hblank).
  - destruct (getStudentEarnedBadges api (Search.studentId (state w)))
      as [data|e] eqn:Hreq.
    + rewrite (handleSearch_resolved api w data Hblank Hreq). simpl.
      unfold searchView. simpl. by destruct (EarnedBadges.badges data).
    + by rewrite (handleSearch_rejected api w e Hblank Hreq).
Qed.

(** ** The further properties on the sample inputs *)


Lemma toggleBadge_behaviour_witness :
  Dashboard.selectedBadge (state (toggleBadge "badge-1" MoreSamples.loaded).2)
  = Some "badge-1".
Proof.
  pose proof (toggleBadge_behaviour "badge-1" MoreSamples.loaded) as H.
  cbv zeta in H. destruct H as (_ & _ & _ & _ & _ & Hexpand & _).
  apply Hexpand. discriminate.
Defined.

Lemma level_survives_extension_witness :
  classifyLevel ("Advanced " +:+ "Intro to C" +:+ " (expert track)") = beginner.
Proof.
  apply (proj1 (level_survives_extension "Intro to C" "Advanced " " (expert track)")).
  reflexivity.
Defined.

Lemma handleSearch_settles_witness :
  filter (λ ev, isRequest ev = true)
    (eventsOf (handleSearch Sample.noAnalytics) (Sample.search0 " s1"))
  = [Request GetStudentEarnedBadges " s1"].
Proof.
  pose proof (handleSearch_settles Sample.noAnalytics (Sample.search0 " s1")) as H.
  cbv zeta in H. destruct H as (_ & _ & _ & Hsent).
  apply Hsent. reflexivity.
Defined.

Lemma view_after_search_witness :
  searchView (state (handleSearch Sample.noAnalytics (Sample.search0 " s1")).2)
  = SummaryAndNoBadges " s1" 0.
Proof.
  pose proof (view_after_search Sample.noAnalytics (Sample.search0 " s1")) as H.
  cbv zeta in H. destruct H as (_ & Hview).
  exact (Hview eq_refl).
Defined.
